(** * Random Gaussian cluster generator ([generate.py])

    A shallow embedding of the generator and of the properties its
    description states about it.

    The program is a single-threaded pipeline
    [parse_args] -> [seed] -> [generate_clusters] -> two file writes ->
    console report -> optional plot.  Its effects are

    - draws from Python's [random] module (one shared, sequential generator),
    - writes to two text files,
    - lines printed on the console,
    - an optional [matplotlib] window.

    Each effect is kept as an explicit component of a state that is threaded
    through the code by a small state-and-exception monad.  The [random]
    module, the file system and the plotting backend are external to the
    repository: they are interfaces (type classes) here, and the theorems
    hold for every implementation of them.  Concrete implementations at the
    end of the model section make every definition runnable. *)

From Stdlib Require Import ZArith List String Ascii Bool Lia.
From Stdlib Require Import Decimal DecimalString DecimalZ.
From Stdlib Require Import SpecFloat.
From stdpp Require Import base option list strings gmap.

Import ListNotations.
Local Open Scope string_scope.
Local Open Scope list_scope.
Local Open Scope Z_scope.

(* ===================================================================== *)
(** * Python values *)
(* ===================================================================== *)

(** Python [int] is unbounded: [Z].  Python [float] is IEEE-754 binary64:
    the Standard Library's [spec_float], whose finite values are
    [(-1)^s * m * 2^e]. *)
Abbreviation float := spec_float.

Definition prec64 : Z := 53.
Definition emax64 : Z := 1024.

(** [a < b] and [a <= b] on floats; every comparison with NaN is false. *)
Definition float_ltb (a b : float) : bool := SFltb a b.
Definition float_leb (a b : float) : bool := SFleb a b.

(** The exceptions the program can meet. *)
Inductive exn : Type :=
| ValueError (msg : string)
| OverflowError (msg : string)
| OSError (msg : string)
| TypeError (msg : string).

Inductive result (A : Type) : Type :=
| Ok (a : A)
| Raise (e : exn).
Arguments Ok {A} a.
Arguments Raise {A} e.

(** The builtin [min] on two arguments keeps the first one unless the
    second is strictly smaller. *)
Definition py_min_int (a b : Z) : Z := if b <? a then b else a.
Definition py_min_float (a b : float) : float := if float_ltb b a then b else a.

(** The builtin [int] on a float: the integral part, towards zero;
    infinities and NaN raise.  For a finite [m * 2^e] with [e < 0] the
    magnitude is [m] shifted right by [-e] bits. *)
Definition py_int_of_float (f : float) : result Z :=
  match f with
  | S754_zero _ => Ok 0
  | S754_infinity _ => Raise (OverflowError "cannot convert float infinity to integer")
  | S754_nan => Raise (ValueError "cannot convert float NaN to integer")
  | S754_finite s m e =>
      let mag := if 0 <=? e then Z.shiftl (Z.pos m) e
                 else Z.shiftr (Z.pos m) (- e) in
      Ok (if s then - mag else mag)
  end.

(* ===================================================================== *)
(** * The state-and-exception monad *)
(* ===================================================================== *)

(** A computation reads and updates a state [S] and either returns a value
    or raises; the state reached is kept in both cases, so that what was
    done before an exception stays observable. *)
Definition M (S A : Type) : Type := S -> result A * S.

Definition ret {S A} (a : A) : M S A := fun s => (Ok a, s).

Definition throw {S A} (e : exn) : M S A := fun s => (Raise e, s).

Definition bind {S A B} (m : M S A) (k : A -> M S B) : M S B :=
  fun s =>
    match m s with
    | (Ok a, s') => k a s'
    | (Raise e, s') => (Raise e, s')
    end.

Definition lift_result {S A} (r : result A) : M S A := fun s => (r, s).

Notation "x <- m ; k" := (bind m (fun x => k))
  (at level 20, m at level 100, k at level 200, only parsing).
Notation "' p <- m ; k" := (bind m (fun x => match x with p => k end))
  (at level 20, p pattern, m at level 100, k at level 200, only parsing).

(* ===================================================================== *)
(** * The [random] module *)
(* ===================================================================== *)

(** The generator behind [random.seed], [random.randint], [random.uniform]
    and [random.gauss].  [G] is the hidden generator state; every draw
    advances it.  [rs_randint] is only consulted on a non-empty range (the
    empty-range check is [py_randint]'s).  [rs_gauss] takes the mean as the
    integer the program passes; converting a huge integer mean to a float
    can raise, hence the [result]. *)
Class RandomSource (G : Type) := {
  rs_seed : Z -> G -> G;
  rs_randint : Z -> Z -> G -> Z * G;
  rs_uniform : float -> float -> G -> float * G;
  rs_gauss : Z -> float -> G -> result float * G;
}.

(** What the library documentation promises of the draws:
    [randint(a, b)] returns [N] with [a <= N <= b], and [uniform(a, b)]
    returns [N] with [a <= N <= b] when [a <= b]. *)
Class RandomSourceLaws (G : Type) `{RandomSource G} := {
  rs_randint_range : forall a b g, a <= b ->
      a <= fst (rs_randint a b g) <= b;
  rs_uniform_range : forall a b g, float_leb a b = true ->
      float_leb a (fst (rs_uniform a b g)) = true /\
      float_leb (fst (rs_uniform a b g)) b = true;
}.

Section Sampler.
Context {G : Type} `{RandomSource G}.

Definition py_seed (n : Z) : M G unit := fun g => (Ok tt, rs_seed n g).

(** [randint(a, b)] raises [ValueError] on an empty range, before any
    entropy is consumed.  The text of the message is the library's and
    changes with its version; no property relies on it. *)
Definition py_randint (a b : Z) : M G Z := fun g =>
  if b <? a then (Raise (ValueError "empty range for randrange()"), g)
  else let (n, g') := rs_randint a b g in (Ok n, g').

Definition py_uniform (a b : float) : M G float := fun g =>
  let (x, g') := rs_uniform a b g in (Ok x, g').

Definition py_gauss (mu : Z) (sigma : float) : M G float := fun g =>
  rs_gauss mu sigma g.

End Sampler.

(* ===================================================================== *)
(** * The data model *)
(* ===================================================================== *)

Definition point : Type := Z * Z.

(** The [limits] dictionary of [generate_clusters]: always built by [run]
    with exactly these eight keys. *)
Record limits : Type := {
  min_points : Z;
  max_points : Z;
  min_x : Z;
  max_x : Z;
  min_y : Z;
  max_y : Z;
  min_sigma : float;
  max_sigma : float;
}.

(** One entry of [ground_truth]: the dictionary with keys ['mean'],
    ['sigma'] and ['n']. *)
Record cluster_data : Type := {
  mean : point;
  sigma : float;
  n : Z;
}.

(* ===================================================================== *)
(** * The cluster sampler *)
(* ===================================================================== *)

Section Generation.
Context {G : Type} `{RandomSource G}.

(** The list comprehension of [generate_cluster]: [range(num_points)]
    iterations, each drawing the x coordinate, converting it, then the y
    coordinate, converting it. *)
Fixpoint generate_cluster_loop (k : nat) (mean_x mean_y : Z) (sg : float)
  : M G (list point) :=
  match k with
  | O => ret []
  | S k' =>
      fx <- py_gauss mean_x sg ;
      x <- lift_result (py_int_of_float fx) ;
      fy <- py_gauss mean_y sg ;
      y <- lift_result (py_int_of_float fy) ;
      rest <- generate_cluster_loop k' mean_x mean_y sg ;
      ret ((x, y) :: rest)
  end.

(** [range(num_points)] is empty for a negative [num_points]. *)
Definition generate_cluster (num_points mean_x mean_y : Z) (sg : float)
  : M G (list point) :=
  generate_cluster_loop (Z.to_nat num_points) mean_x mean_y sg.

(** The body of the [for] loop of [generate_clusters]: the draws in the
    order the statements (and the call's arguments) are evaluated. *)
Definition cluster_iteration (l : limits)
  : M G (list point * cluster_data) :=
  mx <- py_randint (min_x l) (max_x l) ;
  my <- py_randint (min_y l) (max_y l) ;
  sg <- py_uniform (min_sigma l) (max_sigma l) ;
  num_points <- py_randint (min_points l) (max_points l) ;
  points <- generate_cluster num_points mx my sg ;
  ret (points,
       {| mean := (mx, my); sigma := sg; n := Z.of_nat (length points) |}).

(** The [for] loop, with the two lists it appends to. *)
Fixpoint generate_clusters_loop (k : nat) (l : limits)
    (clusters : list (list point)) (ground_truth : list cluster_data)
  : M G (list (list point) * list cluster_data) :=
  match k with
  | O => ret (clusters, ground_truth)
  | S k' =>
      ' (points, data) <- cluster_iteration l ;
      generate_clusters_loop k' l (clusters ++ [points])
                                  (ground_truth ++ [data])
  end.

Definition generate_clusters (num_clusters : Z) (l : limits)
  : M G (list (list point) * list cluster_data) :=
  generate_clusters_loop (Z.to_nat num_clusters) l [] [].

End Generation.


(* ===================================================================== *)
(** * Text output *)
(* ===================================================================== *)

(** [str] on an integer: decimal digits, a leading [-] when negative. *)
Definition str_int (z : Z) : string := NilZero.string_of_int (Z.to_int z).

(** [sep.join(parts)]. *)
Definition join (sep : string) (parts : list string) : string :=
  String.concat sep parts.

(** The components of a point, in tuple order. *)
Definition components (p : point) : list Z := [fst p; snd p].

(** [" ".join(str(component) for component in point)]. *)
Definition format_point (p : point) : string :=
  join " " (map str_int (components p)).

(** The part of the file system the program uses: [open(path, "wt")],
    [print(line, file=handle)] (the line and its newline), and the close
    done when a [with] block is left.  Each can fail. *)
Class FileSystem (F : Type) := {
  fs_handle : Type;
  fs_open_wt : string -> F -> result fs_handle * F;
  fs_print : fs_handle -> string -> F -> result unit * F;
  fs_close : fs_handle -> F -> result unit * F;
}.

Section Writer.
Context {F : Type} `{FileSystem F}.

(** [write_points_to_file]: one [print] per point, in list order; the first
    failing [print] ends the loop. *)
Fixpoint write_points_to_file (points : list point) (file : fs_handle)
  : M F unit :=
  match points with
  | [] => ret tt
  | p :: rest =>
      _ <- fs_print file (format_point p) ;
      write_points_to_file rest file
  end.

(** [with open(path, "wt") as file: body]: an exception of [open] leaves
    before the body; the file is closed on every way out of the body, and
    an exception of the body is re-raised after the close (an exception of
    the close itself takes its place). *)
Definition with_open (path : string) (body : fs_handle -> M F unit)
  : M F unit :=
  fun fs =>
    match fs_open_wt path fs with
    | (Raise e, fs1) => (Raise e, fs1)
    | (Ok file, fs1) =>
        match body file fs1 with
        | (Ok _, fs2) => fs_close file fs2
        | (Raise e, fs2) =>
            match fs_close file fs2 with
            | (Ok _, fs3) => (Raise e, fs3)
            | (Raise e', fs3) => (Raise e', fs3)
            end
        end
    end.

End Writer.

(* ===================================================================== *)
(** * Plotting *)
(* ===================================================================== *)

(** The [pyplot] calls of [show_plot]. *)
Inductive pyplot_call : Type :=
| Figure
| Title (title : string)
| XLabel (label : string)
| YLabelUnrotated (label : string)
| Scatter (xs ys : list Z) (colour : string) (size : Z)
| ShowFigure.

Class Plotter (P : Type) := {
  pyplot_do : pyplot_call -> P -> result unit * P;
}.

(** [zip] of the unpacked list of pairs: all the x, then all the y. *)
Definition unzip_points (points : list point) : list Z * list Z :=
  (map fst points, map snd points).

Section Plot.
Context {P : Type} `{Plotter P}.

(** The loop drawing one red dot per centroid. *)
Fixpoint scatter_centroids (centroids : list point) : M P unit :=
  match centroids with
  | [] => ret tt
  | c :: rest =>
      _ <- pyplot_do (Scatter [fst c] [snd c] "r" 40) ;
      scatter_centroids rest
  end.

(** [show_plot].  [pyplot] is [false] when the import of [matplotlib]
    failed ([pyplot = None]).  With no point, the unpacked [zip] is empty and
    [scatter] is called without its arguments. *)
Definition show_plot (pyplot : bool) (points centroids : list point)
    (title : string) : M P unit :=
  if negb pyplot then ret tt
  else
    _ <- pyplot_do Figure ;
    _ <- pyplot_do (Title title) ;
    _ <- pyplot_do (XLabel "$x$") ;
    _ <- pyplot_do (YLabelUnrotated "$y$") ;
    _ <- match points with
         | [] => throw (TypeError "scatter() missing 2 required positional arguments")
         | _ => let (xs, ys) := unzip_points points in
                pyplot_do (Scatter xs ys "k" 2)
         end ;
    _ <- scatter_centroids centroids ;
    pyplot_do ShowFigure.

End Plot.

(* ===================================================================== *)
(** * The pipeline *)
(* ===================================================================== *)

(** The namespace returned by [parse_args], attributes in the order the
    options are declared.  The sigma options are parsed as floats (their
    integer defaults 5 and 100 stand for the floats of the same value). *)
Record args : Type := {
  seed : Z;
  num_clusters : Z;
  arg_min_points : Z;
  arg_max_points : Z;
  arg_min_x : Z;
  arg_max_x : Z;
  arg_min_y : Z;
  arg_max_y : Z;
  arg_min_sigma : float;
  arg_max_sigma : float;
  points_file : string;
  centroids_file : string;
}.

(** The [limits] dictionary [run] passes to [generate_clusters]: each lower
    bound goes through [min], each upper bound is passed as given. *)
Definition limits_of_args (a : args) : limits :=
  {| min_points := py_min_int (arg_min_points a) (arg_max_points a);
     max_points := arg_max_points a;
     min_x := py_min_int (arg_min_x a) (arg_max_x a);
     max_x := arg_max_x a;
     min_y := py_min_int (arg_min_y a) (arg_max_y a);
     max_y := arg_max_y a;
     min_sigma := py_min_float (arg_min_sigma a) (arg_max_sigma a);
     max_sigma := arg_max_sigma a |}.

(** Everything a run can touch. *)
Record world (G F P : Type) : Type := {
  w_random : G;
  w_files : F;
  w_console : list string;
  w_display : P;
}.
Arguments w_random {G F P} w.
Arguments w_files {G F P} w.
Arguments w_console {G F P} w.
Arguments w_display {G F P} w.

Section Pipeline.
Context {G F P : Type} `{RandomSource G} `{FileSystem F} `{Plotter P}.

(** [str] on a float and the script's file name come from the
    interpreter. *)
Variable str_float : float -> string.
Variable script_name : string.

(** [True] when the import of [matplotlib.pyplot] succeeded. *)
Variable pyplot : bool.

Definition on_random {A} (m : M G A) : M (world G F P) A := fun w =>
  let (r, g) := m (w_random w) in
  (r, {| w_random := g; w_files := w_files w;
         w_console := w_console w; w_display := w_display w |}).

Definition on_files {A} (m : M F A) : M (world G F P) A := fun w =>
  let (r, fs) := m (w_files w) in
  (r, {| w_random := w_random w; w_files := fs;
         w_console := w_console w; w_display := w_display w |}).

Definition on_display {A} (m : M P A) : M (world G F P) A := fun w =>
  let (r, d) := m (w_display w) in
  (r, {| w_random := w_random w; w_files := w_files w;
         w_console := w_console w; w_display := d |}).

(** [print(line)] on the console. *)
Definition print (line : string) : M (world G F P) unit := fun w =>
  (Ok tt, {| w_random := w_random w; w_files := w_files w;
             w_console := w_console w ++ [line];
             w_display := w_display w |}).

Fixpoint print_all (lines : list string) : M (world G F P) unit :=
  match lines with
  | [] => ret tt
  | line :: rest => _ <- print line ; print_all rest
  end.

(** [vars(args).items()], the values already through [str], the
    underscores of the keys already replaced. *)
Definition args_items (a : args) : list (string * string) :=
  [ ("seed", str_int (seed a));
    ("num-clusters", str_int (num_clusters a));
    ("min-points", str_int (arg_min_points a));
    ("max-points", str_int (arg_max_points a));
    ("min-x", str_int (arg_min_x a));
    ("max-x", str_int (arg_max_x a));
    ("min-y", str_int (arg_min_y a));
    ("max-y", str_int (arg_max_y a));
    ("min-sigma", str_float (arg_min_sigma a));
    ("max-sigma", str_float (arg_max_sigma a));
    ("points-file", points_file a);
    ("centroids-file", centroids_file a) ].

Definition print_parameters (a : args) : M (world G F P) unit :=
  _ <- print "Generated clusters using the following parameters:" ;
  print ("    " +:+ script_name +:+ " " +:+
         join " " (map (fun kv => "--" +:+ fst kv +:+ "=" +:+ snd kv)
                       (args_items a))).

(** [str] on a pair of integers. *)
Definition str_point (p : point) : string :=
  "(" +:+ str_int (fst p) +:+ ", " +:+ str_int (snd p) +:+ ")".

(** The lines of one cluster in [print_ground_truth]; [number] is the
    zero-based position. *)
Definition ground_truth_lines (number : nat) (d : cluster_data)
  : list string :=
  [ "    Cluster " +:+ str_int (Z.of_nat number + 1) +:+ ":";
    "        mean: " +:+ str_point (mean d);
    "        sigma: " +:+ str_float (sigma d);
    "        n: " +:+ str_int (n d) ].

Fixpoint print_ground_truth_from (number : nat)
    (ground_truth : list cluster_data) : M (world G F P) unit :=
  match ground_truth with
  | [] => ret tt
  | d :: rest =>
      _ <- print_all (ground_truth_lines number d) ;
      print_ground_truth_from (S number) rest
  end.

Definition print_ground_truth (ground_truth : list cluster_data)
  : M (world G F P) unit :=
  _ <- print "Ground truth:" ;
  print_ground_truth_from 0 ground_truth.

(** [run], from the parsed arguments on. *)
Definition run (a : args) : M (world G F P) unit :=
  _ <- on_random (py_seed (seed a)) ;
  ' (clusters, ground_truth) <-
      on_random (generate_clusters (num_clusters a) (limits_of_args a)) ;
  let points := concat clusters in
  let centroids := map mean ground_truth in
  _ <- on_files (with_open (points_file a) (write_points_to_file points)) ;
  _ <- on_files (with_open (centroids_file a)
                           (write_points_to_file centroids)) ;
  _ <- print_parameters a ;
  _ <- print_ground_truth ground_truth ;
  on_display (show_plot pyplot points centroids
                ("$k=" +:+ str_int (num_clusters a) +:+ "$ random clusters")).

End Pipeline.

(* ===================================================================== *)
(** * Reference implementations of the interfaces *)
(* ===================================================================== *)

(** Small deterministic implementations, for running the model. *)
Module Reference.

(** The float nearest to [m * 2^e]. *)
Definition float_of_dyadic (m e : Z) : float :=
  binary_normalize prec64 emax64 m e false.

Definition fadd : float -> float -> float := SFadd prec64 emax64.
Definition fsub : float -> float -> float := SFsub prec64 emax64.
Definition fmul : float -> float -> float := SFmul prec64 emax64.

(** A linear congruential generator on 31 bits. *)
Definition lcg_next (s : Z) : Z := (1103515245 * s + 12345) mod 2147483648.

Definition lcg_randint (a b s : Z) : Z * Z :=
  let s' := lcg_next s in (a + s' mod (b - a + 1), s').

(** [a + (b - a) * random()], kept inside the bounds. *)
Definition lcg_uniform (a b : float) (s : Z) : float * Z :=
  let s' := lcg_next s in
  let x := fadd a (fmul (fsub b a) (float_of_dyadic s' (-31))) in
  (if float_leb a x && float_leb x b then x else a, s').

(** [mu + z * sigma], with [z] spread over [-2, 2); a result that is not
    a finite float is replaced by zero, so that this generator never makes
    [int] fail. *)
Definition lcg_gauss (mu : Z) (sg : float) (s : Z) : result float * Z :=
  let s' := lcg_next s in
  let z := float_of_dyadic (s' - 1073741824) (-29) in
  match fadd (float_of_dyadic mu 0) (fmul z sg) with
  | S754_finite sx m e => (Ok (S754_finite sx m e), s')
  | _ => (Ok (S754_zero false), s')
  end.

#[export] Instance lcg_source : RandomSource Z := {
  rs_seed := fun n _ => n mod 2147483648;
  rs_randint := lcg_randint;
  rs_uniform := lcg_uniform;
  rs_gauss := lcg_gauss;
}.

(** An in-memory file system: the text of every file, the paths that
    cannot be opened for writing, and the number of lines that can still be
    written before the device is full.  A handle is the path.  Writes are
    not buffered: a line reaches the device when it is printed, where a
    real text file may report a full device only at a flush or at the
    close. *)
Record mem_fs : Type := {
  mf_text : gmap string string;
  mf_readonly : list string;
  mf_room : nat;
}.

Definition newline : string := String "010"%char "".

Definition mem_open_wt (path : string) (fs : mem_fs)
  : result string * mem_fs :=
  if bool_decide (path ∈ mf_readonly fs)
  then (Raise (OSError "Permission denied"), fs)
  else (Ok path, {| mf_text := <[path := ""]> (mf_text fs);
                    mf_readonly := mf_readonly fs;
                    mf_room := mf_room fs |}).

Definition mem_print (file : string) (line : string) (fs : mem_fs)
  : result unit * mem_fs :=
  match mf_room fs with
  | O => (Raise (OSError "No space left on device"), fs)
  | S room =>
      (Ok tt, {| mf_text := <[file := default "" (mf_text fs !! file)
                                        +:+ line +:+ newline]> (mf_text fs);
                 mf_readonly := mf_readonly fs;
                 mf_room := room |})
  end.

Definition mem_close (file : string) (fs : mem_fs) : result unit * mem_fs :=
  (Ok tt, fs).

#[export] Instance mem_file_system : FileSystem mem_fs := {
  fs_handle := string;
  fs_open_wt := mem_open_wt;
  fs_print := mem_print;
  fs_close := mem_close;
}.

(** A display that records the calls it receives. *)
#[export] Instance recording_plotter : Plotter (list pyplot_call) := {
  pyplot_do := fun c log => (Ok tt, log ++ [c]);
}.

Definition empty_fs : mem_fs :=
  {| mf_text := ∅; mf_readonly := []; mf_room := 1000 |}.

Definition initial_world : world Z mem_fs (list pyplot_call) :=
  {| w_random := 0; w_files := empty_fs; w_console := [];
     w_display := [] |}.

(** 5.0 and 100.0. *)
Definition sigma_5 : float := S754_finite false 5629499534213120 (-50).
Definition sigma_100 : float := S754_finite false 7036874417766400 (-46).

Definition small_args : args :=
  {| seed := 42; num_clusters := 3;
     arg_min_points := 2; arg_max_points := 4;
     arg_min_x := 1000; arg_max_x := 2000;
     arg_min_y := 1000; arg_max_y := 2000;
     arg_min_sigma := sigma_5; arg_max_sigma := sigma_100;
     points_file := "points.txt"; centroids_file := "centroids.txt" |}.

End Reference.


(* ===================================================================== *)
(** * Reading the output files back *)
(* ===================================================================== *)

(** The reader the round-trip property speaks of: every line is split on
    whitespace and its two fields are parsed as integers. *)

(** The ASCII characters [str.split] takes for whitespace: tab to carriage
    return, the four separators, and the space. *)
Definition is_space (c : ascii) : bool :=
  let k := nat_of_ascii c in
  (Nat.leb 9 k && Nat.leb k 13) || (Nat.leb 28 k && Nat.leb k 32).

(** [s.split()]: the maximal runs of non-whitespace characters; [word] is
    the run being read. *)
Fixpoint split_from (word s : string) : list string :=
  match s with
  | EmptyString => if String.eqb word "" then [] else [word]
  | String c rest =>
      if is_space c
      then (if String.eqb word "" then split_from "" rest
            else word :: split_from "" rest)
      else split_from (word +:+ String c "") rest
  end.

Definition py_split (s : string) : list string := split_from "" s.

(** [int(s)] on a plain decimal numeral with an optional minus sign. *)
Definition py_int_of_str (s : string) : option Z :=
  option_map Z.of_int (NilZero.int_of_string s).

Definition parse_point (line : string) : option point :=
  match py_split line with
  | [sx; sy] =>
      match py_int_of_str sx, py_int_of_str sy with
      | Some x, Some y => Some (x, y)
      | _, _ => None
      end
  | _ => None
  end.

(** The lines of a text, each ended by a newline; [line] is the line being
    read. *)
Fixpoint lines_from (line s : string) : list string :=
  match s with
  | EmptyString => if String.eqb line "" then [] else [line]
  | String c rest =>
      if Ascii.eqb c "010"%char then line :: lines_from "" rest
      else lines_from (line +:+ String c "") rest
  end.

Definition text_lines (text : string) : list string := lines_from "" text.

Definition read_points (text : string) : option (list point) :=
  mapM parse_point (text_lines text).

(* ===================================================================== *)
(** * Observing the draws *)
(* ===================================================================== *)

(** The calls made to the [random] module. *)
Inductive draw : Type :=
| DrawSeed (seed_value : Z)
| DrawRandint (a b : Z)
| DrawUniform (a b : float)
| DrawGauss (mu : Z) (sg : float).

(** Any generator, together with the list of the calls it has served, in
    the order they were made.  The answers are the generator's own. *)
#[export] Instance recording_source {G : Type} `{RandomSource G}
  : RandomSource (G * list draw) := {
  rs_seed := fun n gl => (rs_seed n (fst gl), snd gl ++ [DrawSeed n]);
  rs_randint := fun a b gl =>
    let (r, g') := rs_randint a b (fst gl) in
    (r, (g', snd gl ++ [DrawRandint a b]));
  rs_uniform := fun a b gl =>
    let (r, g') := rs_uniform a b (fst gl) in
    (r, (g', snd gl ++ [DrawUniform a b]));
  rs_gauss := fun mu sg gl =>
    let (r, g') := rs_gauss mu sg (fst gl) in
    (r, (g', snd gl ++ [DrawGauss mu sg]));
}.

(** The successive iterations of the loop of [generate_clusters]: the
    generator state before the first, what each iteration produced, in
    order, and the state after the last. *)
Inductive iterations {G : Type} `{RandomSource G} (l : limits)
  : G -> list (list point * cluster_data) -> G -> Prop :=
| iterations_nil g : iterations l g [] g
| iterations_cons g g1 g2 r rs :
    cluster_iteration l g = (Ok r, g1) ->
    iterations l g1 rs g2 ->
    iterations l g (r :: rs) g2.

(* ===================================================================== *)
(** * Vocabulary of the properties *)
(* ===================================================================== *)

(** Two consecutive Gaussian draws and the point they give. *)
Definition drawn_point {G : Type} `{RandomSource G}
    (mean_x mean_y : Z) (sg : float) (p : point) : Prop :=
  exists (fx fy : float) (g1 g2 g3 : G),
    rs_gauss mean_x sg g1 = (Ok fx, g2) /\
    rs_gauss mean_y sg g2 = (Ok fy, g3) /\
    py_int_of_float fx = Ok (fst p) /\
    py_int_of_float fy = Ok (snd p).

(** The sum of the ['n'] fields. *)
Definition total_points (ground_truth : list cluster_data) : Z :=
  fold_right Z.add 0 (map n ground_truth).

(** The bounds a ground-truth entry is checked against. *)
Definition within_limits (l : limits) (d : cluster_data) : Prop :=
  Z.max 0 (min_points l) <= n d <= Z.max 0 (max_points l) /\
  min_x l <= fst (mean d) <= max_x l /\
  min_y l <= snd (mean d) <= max_y l /\
  float_leb (min_sigma l) (sigma d) = true /\
  float_leb (sigma d) (max_sigma l) = true.

(** A dictionary of limits with every pair in order. *)
Definition normalized (l : limits) : Prop :=
  min_points l <= max_points l /\
  min_x l <= max_x l /\
  min_y l <= max_y l /\
  float_leb (min_sigma l) (max_sigma l) = true.

(** The arguments with every lower bound replaced by what [run] makes of
    it. *)
Definition lowered_args (a : args) : args :=
  {| seed := seed a; num_clusters := num_clusters a;
     arg_min_points := py_min_int (arg_min_points a) (arg_max_points a);
     arg_max_points := arg_max_points a;
     arg_min_x := py_min_int (arg_min_x a) (arg_max_x a);
     arg_max_x := arg_max_x a;
     arg_min_y := py_min_int (arg_min_y a) (arg_max_y a);
     arg_max_y := arg_max_y a;
     arg_min_sigma := py_min_float (arg_min_sigma a) (arg_max_sigma a);
     arg_max_sigma := arg_max_sigma a;
     points_file := points_file a; centroids_file := centroids_file a |}.

(** The value of a finite float as a fraction: numerator and denominator. *)
Definition float_numerator (s : bool) (m : positive) (e : Z) : Z :=
  (if s then - Z.pos m else Z.pos m) * 2 ^ Z.max e 0.
Definition float_denominator (e : Z) : Z := 2 ^ Z.max (- e) 0.

(** -1.7, that is [-0x1.b333333333333p+0]. *)
Definition minus_1_7 : float := S754_finite true 7656119366529843 (-52).

(** [z] is the value of [f] with its fractional part dropped: for the
    value [num / den], [|z| <= |num / den| < |z| + 1] and [z] is not of the
    opposite sign. *)
Definition truncation_of (f : float) (z : Z) : Prop :=
  match f with
  | S754_zero _ => z = 0
  | S754_finite s m e =>
      let num := float_numerator s m e in
      let den := float_denominator e in
      Z.abs z * den <= Z.abs num < (Z.abs z + 1) * den /\ 0 <= z * num
  | _ => False
  end.

(** A point whose coordinates are the truncations of two consecutive
    Gaussian draws, the first around [mean_x], the second around
    [mean_y]. *)
Definition truncated_draws {G : Type} `{RandomSource G}
    (mean_x mean_y : Z) (sg : float) (p : point) : Prop :=
  exists (fx fy : float) (g1 g2 g3 : G),
    rs_gauss mean_x sg g1 = (Ok fx, g2) /\
    rs_gauss mean_y sg g2 = (Ok fy, g3) /\
    py_int_of_float fx = Ok (fst p) /\
    py_int_of_float fy = Ok (snd p) /\
    truncation_of fx (fst p) /\
    truncation_of fy (snd p).

(** The calls one iteration of the loop of [generate_clusters] makes,
    given what it produced: the centre, the sigma, the point count, then
    two Gaussian draws per point. *)
Definition iteration_draws (l : limits) (r : list point * cluster_data)
  : list draw :=
  [ DrawRandint (min_x l) (max_x l);
    DrawRandint (min_y l) (max_y l);
    DrawUniform (min_sigma l) (max_sigma l);
    DrawRandint (min_points l) (max_points l) ]
  ++ flat_map (fun _ => [ DrawGauss (fst (mean (snd r))) (sigma (snd r));
                          DrawGauss (snd (mean (snd r))) (sigma (snd r)) ])
              (fst r).

(** A computation on the recording generator that answers as [m] does on
    the generator it records. *)
Definition observes {G : Type} {A : Type}
    (mr : M (G * list draw) A) (m : M G A) : Prop :=
  forall g log,
    fst (mr (g, log)) = fst (m g) /\ fst (snd (mr (g, log))) = snd (m g).

(** Every character of the string passes the test. *)
Fixpoint string_forallb (test : ascii -> bool) (s : string) : bool :=
  match s with
  | EmptyString => true
  | String c rest => test c && string_forallb test rest
  end.

Definition no_space (s : string) : bool :=
  string_forallb (fun c => negb (is_space c)) s.

Definition no_newline (s : string) : bool :=
  string_forallb (fun c => negb (Ascii.eqb c "010"%char)) s.

(** The text [write_points_to_file] produces: one line per point. *)
Fixpoint points_text (points : list point) : string :=
  match points with
  | [] => ""
  | p :: rest => format_point p +:+ Reference.newline +:+ points_text rest
  end.

(** The lines [print_parameters] and [print_ground_truth] put on the
    console. *)
Definition parameter_lines (str_float : float -> string)
    (script_name : string) (a : args) : list string :=
  [ "Generated clusters using the following parameters:";
    "    " +:+ script_name +:+ " " +:+
      join " " (map (fun kv => "--" +:+ fst kv +:+ "=" +:+ snd kv)
                    (args_items str_float a)) ].

Fixpoint ground_truth_lines_from (str_float : float -> string)
    (number : nat) (ground_truth : list cluster_data) : list string :=
  match ground_truth with
  | [] => []
  | d :: rest =>
      ground_truth_lines str_float number d
      ++ ground_truth_lines_from str_float (S number) rest
  end.

Definition report_lines (str_float : float -> string)
    (script_name : string) (a : args) (ground_truth : list cluster_data)
  : list string :=
  parameter_lines str_float script_name a
  ++ "Ground truth:" :: ground_truth_lines_from str_float 0 ground_truth.

(** The ways one [with open(path, "wt") as file: write_points_to_file(...)]
    statement can fail, in terms of the calls it makes to the file system:
    [open] raises; or a [print] raises, the points before it being written,
    and the close that follows succeeds or raises in its turn (the
    exception of the close then takes the place of the one of the
    [print]); or every [print] succeeds and the close raises.  [fs] is the
    file system before the statement, [fs'] the one it leaves, [e] the
    exception that leaves the statement. *)
Inductive write_fails {F : Type} `{FileSystem F}
    (path : string) (points : list point) (fs : F) : exn -> F -> Prop :=
| open_raises e fs' :
    fs_open_wt path fs = (Raise e, fs') ->
    write_fails path points fs e fs'
| print_raises file fs1 before p after fs2 e fs3 fs' :
    fs_open_wt path fs = (Ok file, fs1) ->
    points = before ++ p :: after ->
    write_points_to_file before file fs1 = (Ok tt, fs2) ->
    fs_print file (format_point p) fs2 = (Raise e, fs3) ->
    fs_close file fs3 = (Ok tt, fs') ->
    write_fails path points fs e fs'
| print_and_close_raise file fs1 before p after fs2 e0 fs3 e fs' :
    fs_open_wt path fs = (Ok file, fs1) ->
    points = before ++ p :: after ->
    write_points_to_file before file fs1 = (Ok tt, fs2) ->
    fs_print file (format_point p) fs2 = (Raise e0, fs3) ->
    fs_close file fs3 = (Raise e, fs') ->
    write_fails path points fs e fs'
| close_raises file fs1 fs2 e fs' :
    fs_open_wt path fs = (Ok file, fs1) ->
    write_points_to_file points file fs1 = (Ok tt, fs2) ->
    fs_close file fs2 = (Raise e, fs') ->
    write_fails path points fs e fs'.

(** The ways the two file writes of [run] can fail: the write of the points
    file fails; or, the points file written, the write of the centroids
    file fails.  [fs] is the file system when the writes start, [fs'] the
    one the failure leaves. *)
Inductive persistence_fails {F : Type} `{FileSystem F}
    (a : args) (clusters : list (list point))
    (ground_truth : list cluster_data) (fs : F) : exn -> F -> Prop :=
| points_write_fails e fs' :
    write_fails (points_file a) (concat clusters) fs e fs' ->
    persistence_fails a clusters ground_truth fs e fs'
| centroids_write_fails e fs1 fs' :
    with_open (points_file a) (write_points_to_file (concat clusters)) fs
      = (Ok tt, fs1) ->
    write_fails (centroids_file a) (map mean ground_truth) fs1 e fs' ->
    persistence_fails a clusters ground_truth fs e fs'.

(** The bounds as the description words them: the count against the
    point-count range itself. *)
Definition within_stated_limits (l : limits) (d : cluster_data) : Prop :=
  min_points l <= n d <= max_points l /\
  min_x l <= fst (mean d) <= max_x l /\
  min_y l <= snd (mean d) <= max_y l /\
  float_leb (min_sigma l) (sigma d) = true /\
  float_leb (sigma d) (max_sigma l) = true.

(** A generator whose Gaussian draws never raise and always convert. *)
Class GaussFinite (G : Type) `{RandomSource G} := {
  rs_gauss_finite : forall mu sg g,
    exists f g' z, rs_gauss mu sg g = (Ok f, g') /\ py_int_of_float f = Ok z;
}.

(** ** Sample runs *)

Module Sample.
Import Reference.

Definition small_limits : limits := limits_of_args small_args.

(** What [generate_clusters 3] returns from the generator state 42. *)
Definition small_clusters : list (list point) :=
  Eval vm_compute in
    match generate_clusters 3 small_limits 42 with
    | (Ok (clusters, _), _) => clusters
    | _ => []
    end.

Definition small_ground_truth : list cluster_data :=
  Eval vm_compute in
    match generate_clusters 3 small_limits 42 with
    | (Ok (_, ground_truth), _) => ground_truth
    | _ => []
    end.

Definition small_final : Z :=
  Eval vm_compute in snd (generate_clusters 3 small_limits 42).

(** What [generate_cluster 2 10 (-20) 5.0] returns from the state 7. *)
Definition two_points : list point :=
  Eval vm_compute in
    match generate_cluster 2 10 (-20) sigma_5 7 with
    | (Ok pts, _) => pts
    | _ => []
    end.

Definition two_points_final : Z :=
  Eval vm_compute in snd (generate_cluster 2 10 (-20) sigma_5 7).

(** The calls recorded while [generate_clusters 3] runs. *)
Definition small_recorded_draws : list draw :=
  Eval vm_compute in
    snd (snd (generate_clusters 3 small_limits (42, @nil draw))).

(** A stand-in for [str] on floats, and the script's name. *)
Definition float_text (f : float) : string := "<float>".
Definition generate_py : string := "generate.py".

(** The x bounds given out of order, and given in order. *)
Definition swapped_x_args : args :=
  {| seed := 42; num_clusters := 3;
     arg_min_points := 2; arg_max_points := 4;
     arg_min_x := 2000; arg_max_x := 1000;
     arg_min_y := 1000; arg_max_y := 2000;
     arg_min_sigma := sigma_5; arg_max_sigma := sigma_100;
     points_file := "points.txt"; centroids_file := "centroids.txt" |}.

Definition ordered_x_args : args := small_args.

(** A world in which [points.txt] cannot be opened for writing. *)
Definition locked_fs : mem_fs :=
  {| mf_text := empty; mf_readonly := ["points.txt"]; mf_room := 1000 |}.

Definition locked_world : world Z mem_fs (list pyplot_call) :=
  {| w_random := 0; w_files := locked_fs; w_console := [];
     w_display := [] |}.

(** A world in which the device is full after four lines. *)
Definition full_world : world Z mem_fs (list pyplot_call) :=
  {| w_random := 0;
     w_files := {| mf_text := empty; mf_readonly := []; mf_room := 4 |};
     w_console := []; w_display := [] |}.

(** A point-count range below zero, in order. *)
Definition negative_count_limits : limits :=
  {| min_points := -5; max_points := -1;
     min_x := 1000; max_x := 2000; min_y := 1000; max_y := 2000;
     min_sigma := sigma_5; max_sigma := sigma_100 |}.

Definition negative_count_entry : cluster_data :=
  Eval vm_compute in
    match generate_clusters 1 negative_count_limits 42 with
    | (Ok (_, [d]), _) => d
    | _ => {| mean := (0, 0); sigma := S754_nan; n := -1 |}
    end.

Definition negative_count_final : Z :=
  Eval vm_compute in snd (generate_clusters 1 negative_count_limits 42).

End Sample.

(* ===================================================================== *)
(** * Further vocabulary and cases *)
(* ===================================================================== *)

(** A generator that [seed] resets: the state after [seed(n)] does not
    depend on the state before, as for Python's generator. *)
Class SeedResets (G : Type) `{RandomSource G} := {
  rs_seed_resets : forall n (g g' : G), rs_seed n g = rs_seed n g';
}.

Definition is_nan (f : float) : bool :=
  match f with
  | S754_nan => true
  | _ => false
  end.

(** The floats [int] accepts: the zeros and the finite values. *)
Definition convertible (f : float) : bool :=
  match f with
  | S754_zero _ | S754_finite _ _ _ => true
  | _ => false
  end.

(** The bounds on the integers of a ground-truth entry. *)
Definition integer_bounds (l : limits) (d : cluster_data) : Prop :=
  min_x l <= fst (mean d) <= max_x l /\
  min_y l <= snd (mean d) <= max_y l /\
  Z.max 0 (min_points l) <= n d <= Z.max 0 (max_points l).

(** The world with another generator state. *)
Definition with_random {G F P : Type} (w : world G F P) (g : G)
  : world G F P :=
  {| w_random := g; w_files := w_files w;
     w_console := w_console w; w_display := w_display w |}.

Module Cases.
Import Reference Sample.

(** A generator without state whose every Gaussian draw is [f]; [randint]
    and [uniform] answer their lower bound. *)
Definition stuck_source (f : float) : RandomSource unit :=
  {| rs_seed := fun _ g => g;
     rs_randint := fun a _ g => (a, g);
     rs_uniform := fun a _ g => (a, g);
     rs_gauss := fun _ _ g => (Ok f, g) |}.

Definition infinity : float := S754_infinity false.

(** Limits whose x range is empty. *)
Definition empty_x_limits : limits :=
  {| min_points := 2; max_points := 4;
     min_x := 2000; max_x := 1000; min_y := 1000; max_y := 2000;
     min_sigma := sigma_5; max_sigma := sigma_100 |}.

(** Limits with a fixed point count. *)
Definition five_points_limits : limits :=
  {| min_points := 5; max_points := 5;
     min_x := 1000; max_x := 2000; min_y := 1000; max_y := 2000;
     min_sigma := sigma_5; max_sigma := sigma_100 |}.

Definition five_points_clusters : list (list point) :=
  Eval vm_compute in
    match generate_clusters 2 five_points_limits 42 with
    | (Ok (clusters, _), _) => clusters
    | _ => []
    end.

Definition five_points_ground_truth : list cluster_data :=
  Eval vm_compute in
    match generate_clusters 2 five_points_limits 42 with
    | (Ok (_, ground_truth), _) => ground_truth
    | _ => []
    end.

Definition five_points_final : Z :=
  Eval vm_compute in snd (generate_clusters 2 five_points_limits 42).

(** What [generate_clusters 3] returns for the x bounds given out of
    order. *)
Definition swapped_clusters : list (list point) :=
  Eval vm_compute in
    match generate_clusters 3 (limits_of_args swapped_x_args) 42 with
    | (Ok (clusters, _), _) => clusters
    | _ => []
    end.

Definition swapped_ground_truth : list cluster_data :=
  Eval vm_compute in
    match generate_clusters 3 (limits_of_args swapped_x_args) 42 with
    | (Ok (_, ground_truth), _) => ground_truth
    | _ => []
    end.

Definition swapped_final : Z :=
  Eval vm_compute in
    snd (generate_clusters 3 (limits_of_args swapped_x_args) 42).

(** No cluster at all. *)
Definition no_cluster_args : args :=
  {| seed := 42; num_clusters := 0;
     arg_min_points := 2; arg_max_points := 4;
     arg_min_x := 1000; arg_max_x := 2000;
     arg_min_y := 1000; arg_max_y := 2000;
     arg_min_sigma := sigma_5; arg_max_sigma := sigma_100;
     points_file := "points.txt"; centroids_file := "centroids.txt" |}.

(** Both outputs sent to the same path. *)
Definition same_file_args : args :=
  {| seed := 42; num_clusters := 3;
     arg_min_points := 2; arg_max_points := 4;
     arg_min_x := 1000; arg_max_x := 2000;
     arg_min_y := 1000; arg_max_y := 2000;
     arg_min_sigma := sigma_5; arg_max_sigma := sigma_100;
     points_file := "out.txt"; centroids_file := "out.txt" |}.

(** A world with a file the run is not asked to write. *)
Definition notes_world : world Z mem_fs (list pyplot_call) :=
  {| w_random := 0;
     w_files := {| mf_text := <[ "notes.txt" := "keep" ]> empty;
                   mf_readonly := []; mf_room := 1000 |};
     w_console := []; w_display := [] |}.

(** A world on the stuck generator. *)
Definition stuck_world : world unit mem_fs (list pyplot_call) :=
  {| w_random := tt; w_files := empty_fs; w_console := [];
     w_display := [] |}.

End Cases.

(* ===================================================================== *)
(** * Properties *)
(* ===================================================================== *)

Import Reference Sample.

(** ** The monad *)

Lemma bind_Ok_inv {S A B} (m : M S A) (k : A -> M S B) s b s' :
  bind m k s = (Ok b, s') ->
  exists a s1, m s = (Ok a, s1) /\ k a s1 = (Ok b, s').
Proof.
  unfold bind. destruct (m s) as [[a|e] s1]; intros Hk.
  - exists a, s1. split; [reflexivity | exact Hk].
  - discriminate Hk.
Qed.

Lemma bind_Ok_step {S A B} (m : M S A) (k : A -> M S B) s a s1 :
  m s = (Ok a, s1) -> bind m k s = k a s1.
Proof. unfold bind. intros ->. reflexivity. Qed.

Lemma bind_Raise_step {S A B} (m : M S A) (k : A -> M S B) s e s1 :
  m s = (Raise e, s1) -> bind m k s = (Raise e, s1).
Proof. unfold bind. intros ->. reflexivity. Qed.

Lemma lift_result_Ok_inv {S A} (r : result A) (s s' : S) a :
  lift_result r s = (Ok a, s') -> r = Ok a /\ s' = s.
Proof. unfold lift_result. intros [= -> ->]. split; reflexivity. Qed.

(** Splits a successful run of a [bind] into the run of its two parts. *)
Ltac bind_inv Hrun :=
  let a := fresh "a" in
  let s1 := fresh "s" in
  let Hm := fresh "Hm" in
  apply bind_Ok_inv in Hrun as (a & s1 & Hm & Hrun).

Tactic Notation "bind_split" hyp(Hrun) "as" ident(a) ident(s) ident(Hm) :=
  apply bind_Ok_inv in Hrun as (a & s & Hm & Hrun).

(** ** The draws *)

Section DrawFacts.
Context {G : Type} `{RandomSource G}.

Lemma py_randint_Ok_inv a b (g g' : G) r :
  py_randint a b g = (Ok r, g') ->
  a <= b /\ rs_randint a b g = (r, g').
Proof.
  unfold py_randint. destruct (Z.ltb_spec b a) as [Hlt | Hle].
  - discriminate.
  - destruct (rs_randint a b g) as [r0 g0]. intros [= -> ->].
    split; [exact Hle | reflexivity].
Qed.

Lemma py_randint_ordered a b (g : G) :
  a <= b ->
  py_randint a b g = (Ok (fst (rs_randint a b g)), snd (rs_randint a b g)).
Proof.
  intros Hle. unfold py_randint.
  destruct (Z.ltb_spec b a) as [Hlt | _]; [lia |].
  destruct (rs_randint a b g); reflexivity.
Qed.

Lemma py_uniform_Ok_inv a b (g g' : G) x :
  py_uniform a b g = (Ok x, g') -> rs_uniform a b g = (x, g').
Proof.
  unfold py_uniform. destruct (rs_uniform a b g) as [x0 g0].
  intros [= -> ->]. reflexivity.
Qed.

End DrawFacts.

(** ** One cluster *)

Section ClusterFacts.
Context {G : Type} `{RandomSource G}.

(** A successful [generate_cluster] loop returns as many points as it has
    iterations, each the conversion of two consecutive Gaussian draws. *)
Lemma generate_cluster_loop_spec k mean_x mean_y sg :
  forall (g g' : G) pts,
    generate_cluster_loop k mean_x mean_y sg g = (Ok pts, g') ->
    length pts = k /\ Forall (drawn_point mean_x mean_y sg) pts.
Proof.
  induction k as [| k IH]; intros g g' pts Hrun; simpl in Hrun.
  - injection Hrun as <- _. split; [reflexivity | constructor].
  - bind_inv Hrun. rename a into fx, s into g1, Hm into Hfx.
    bind_inv Hrun. rename a into x, s into g1', Hm into Hx.
    apply lift_result_Ok_inv in Hx as [Hx ->].
    bind_inv Hrun. rename a into fy, s into g2, Hm into Hfy.
    bind_inv Hrun. rename a into y, s into g2', Hm into Hy.
    apply lift_result_Ok_inv in Hy as [Hy ->].
    bind_inv Hrun. rename a into rest, s into g3, Hm into Hrest.
    injection Hrun as <- _.
    destruct (IH _ _ _ Hrest) as [Hlen Hall].
    split; [simpl; now rewrite Hlen |].
    constructor; [| exact Hall].
    exists fx, fy, g, g1, g2. unfold py_gauss in Hfx, Hfy.
    repeat split; assumption.
Qed.

Lemma generate_cluster_length num_points mean_x mean_y sg (g g' : G) pts :
  generate_cluster num_points mean_x mean_y sg g = (Ok pts, g') ->
  Z.of_nat (length pts) = Z.max 0 num_points.
Proof.
  unfold generate_cluster. intros Hrun.
  apply generate_cluster_loop_spec in Hrun as [-> _]. lia.
Qed.

(** What a successful iteration of the loop of [generate_clusters] did. *)
Lemma cluster_iteration_inv (l : limits) (g g' : G) pts d :
  cluster_iteration l g = (Ok (pts, d), g') ->
  exists g1 g2 g3 g4 num_points,
    min_x l <= max_x l /\
    rs_randint (min_x l) (max_x l) g = (fst (mean d), g1) /\
    min_y l <= max_y l /\
    rs_randint (min_y l) (max_y l) g1 = (snd (mean d), g2) /\
    rs_uniform (min_sigma l) (max_sigma l) g2 = (sigma d, g3) /\
    min_points l <= max_points l /\
    rs_randint (min_points l) (max_points l) g3 = (num_points, g4) /\
    generate_cluster num_points (fst (mean d)) (snd (mean d)) (sigma d) g4
      = (Ok pts, g') /\
    n d = Z.of_nat (length pts).
Proof.
  unfold cluster_iteration. intros Hrun.
  bind_inv Hrun. rename a into mx, s into g1, Hm into Hmx.
  bind_inv Hrun. rename a into my, s into g2, Hm into Hmy.
  bind_inv Hrun. rename a into sg, s into g3, Hm into Hsg.
  bind_inv Hrun. rename a into np, s into g4, Hm into Hnp.
  bind_inv Hrun. rename a into points, s into g5, Hm into Hpts.
  injection Hrun as <- <- <-. simpl.
  apply py_randint_Ok_inv in Hmx as [? ?], Hmy as [? ?], Hnp as [? ?].
  apply py_uniform_Ok_inv in Hsg.
  exists g1, g2, g3, g4, np. repeat split; assumption.
Qed.

End ClusterFacts.

(** ** The loop over the clusters *)

Section LoopFacts.
Context {G : Type} `{RandomSource G}.

(** A successful loop appends, to each of its two lists, what its
    iterations produced, in the order they ran. *)
Lemma generate_clusters_loop_spec k (l : limits) :
  forall clusters ground_truth (g g' : G) clusters' ground_truth',
    generate_clusters_loop k l clusters ground_truth g
      = (Ok (clusters', ground_truth'), g') ->
    exists rs,
      length rs = k /\
      iterations l g rs g' /\
      clusters' = clusters ++ map fst rs /\
      ground_truth' = ground_truth ++ map snd rs.
Proof.
  induction k as [| k IH]; intros cl gt g g' cl' gt' Hrun; simpl in Hrun.
  - injection Hrun as <- <- <-. exists []. simpl.
    rewrite !app_nil_r. repeat split. constructor.
  - bind_inv Hrun. destruct a as [pts d]. rename s into g1, Hm into Hit.
    apply IH in Hrun as (rs & Hlen & Hits & -> & ->).
    exists ((pts, d) :: rs). simpl. rewrite <- !app_assoc. simpl.
    repeat split; [now rewrite Hlen |].
    econstructor; eassumption.
Qed.

Lemma generate_clusters_spec num_clusters (l : limits) (g g' : G)
    clusters ground_truth :
  generate_clusters num_clusters l g = (Ok (clusters, ground_truth), g') ->
  exists rs,
    length rs = Z.to_nat num_clusters /\
    iterations l g rs g' /\
    clusters = map fst rs /\
    ground_truth = map snd rs.
Proof.
  unfold generate_clusters. intros Hrun.
  apply generate_clusters_loop_spec in Hrun as (rs & ? & ? & ? & ?).
  exists rs. repeat split; assumption.
Qed.

(** Every iteration records the length of the list it produced. *)
Lemma iterations_counts (l : limits) (g g' : G) rs :
  iterations l g rs g' ->
  Forall (fun r => n (snd r) = Z.of_nat (length (fst r))) rs.
Proof.
  induction 1 as [| g g1 g2 [pts d] rs Hit _ IH]; constructor; [| exact IH].
  apply cluster_iteration_inv in Hit as (? & ? & ? & ? & ? & Hit).
  simpl. apply Hit.
Qed.

Lemma iterations_within_limits `{!RandomSourceLaws G}
    (l : limits) (g g' : G) rs :
  normalized l ->
  iterations l g rs g' ->
  Forall (fun r => within_limits l (snd r)) rs.
Proof.
  intros (Hp & Hx & Hy & Hs).
  induction 1 as [| g g1 g2 [pts d] rs Hit _ IH]; constructor; [| exact IH].
  apply cluster_iteration_inv in Hit
    as (h1 & h2 & h3 & h4 & np & _ & Hmx & _ & Hmy & Hsg & _ & Hnp & Hgen & Hn).
  simpl. unfold within_limits.
  pose proof (rs_randint_range (min_x l) (max_x l) g Hx) as Bx.
  pose proof (rs_randint_range (min_y l) (max_y l) h1 Hy) as By.
  pose proof (rs_randint_range (min_points l) (max_points l) h3 Hp) as Bp.
  pose proof (rs_uniform_range (min_sigma l) (max_sigma l) h2 Hs) as Bs.
  rewrite Hmx in Bx. rewrite Hmy in By. rewrite Hnp in Bp. rewrite Hsg in Bs.
  simpl in Bx, By, Bp, Bs.
  apply generate_cluster_length in Hgen. rewrite Hn, Hgen.
  repeat split; try tauto; lia.
Qed.

End LoopFacts.

(** ** Lists of lists *)

Lemma map_fmap {A B} (f : A -> B) (ls : list A) : map f ls = f <$> ls.
Proof. induction ls as [| a ls IH]; simpl; [reflexivity | now rewrite IH]. Qed.

Lemma concat_block {A} (ls : list (list A)) (i : nat) (block : list A) :
  ls !! i = Some block ->
  take (length block) (drop (length (concat (take i ls))) (concat ls))
    = block.
Proof.
  intros Hi. rewrite <- (take_drop_middle ls i block Hi) at 2.
  rewrite concat_app, drop_app_length. simpl.
  now rewrite take_app_length.
Qed.

Lemma total_points_app gt1 gt2 :
  total_points (gt1 ++ gt2) = total_points gt1 + total_points gt2.
Proof.
  unfold total_points. induction gt1 as [| d gt1 IH]; simpl; [lia |].
  rewrite IH. lia.
Qed.

(** When every entry records the length of its cluster, the recorded
    counts add up to the length of the concatenation. *)
Lemma total_points_concat (rs : list (list point * cluster_data)) :
  Forall (fun r => n (snd r) = Z.of_nat (length (fst r))) rs ->
  total_points (map snd rs) = Z.of_nat (length (concat (map fst rs))).
Proof.
  unfold total_points.
  induction 1 as [| [pts d] rs Hn _ IH]; simpl; [reflexivity |].
  simpl in Hn. rewrite IH, Hn, length_app. lia.
Qed.

(** ** The reference generator obeys the interface *)

Lemma float_leb_refl_l (a b : float) :
  float_leb a b = true -> float_leb a a = true.
Proof.
  unfold float_leb, SFleb. intros Hab.
  assert (Hc : SFcompare a a = Some Eq).
  { destruct a as [s | s | | s m e]; simpl.
    - reflexivity.
    - now destruct s.
    - destruct b; discriminate Hab.
    - rewrite Z.compare_refl, Pos.compare_cont_refl. now destruct s. }
  now rewrite Hc.
Qed.

Lemma lcg_laws : RandomSourceLaws Z.
Proof.
  split.
  - intros a b g Hab. simpl. unfold lcg_randint. simpl.
    pose proof (Z.mod_pos_bound (lcg_next g) (b - a + 1)). lia.
  - intros a b g Hab. simpl. unfold lcg_uniform. simpl.
    destruct (float_leb a _ && float_leb _ b) eqn:Hin.
    + apply andb_true_iff in Hin. exact Hin.
    + split; [now apply float_leb_refl_l with b | exact Hab].
Qed.

#[export] Existing Instance lcg_laws.

Lemma lcg_gauss_finite : GaussFinite Z.
Proof.
  split. intros mu sg g. simpl. unfold lcg_gauss.
  destruct (fadd _ _) as [s | s | | s m e]; eexists _, _, _; split;
    try reflexivity; simpl; reflexivity.
Qed.

#[export] Existing Instance lcg_gauss_finite.

(** ** Generation returns *)

Section Totality.
Context {G : Type} `{RandomSource G} `{!GaussFinite G}.

Lemma generate_cluster_loop_returns k mean_x mean_y sg :
  forall g : G, exists pts g',
    generate_cluster_loop k mean_x mean_y sg g = (Ok pts, g').
Proof.
  induction k as [| k IH]; intros g; simpl.
  - eexists _, _. reflexivity.
  - destruct (rs_gauss_finite mean_x sg g) as (fx & g1 & x & Hfx & Hx).
    destruct (rs_gauss_finite mean_y sg g1) as (fy & g2 & y & Hfy & Hy).
    destruct (IH g2) as (rest & g3 & Hrest).
    exists ((x, y) :: rest), g3.
    rewrite (bind_Ok_step _ _ _ _ _ Hfx).
    unfold lift_result at 1. rewrite Hx.
    unfold bind at 1.
    rewrite (bind_Ok_step _ _ _ _ _ Hfy).
    unfold lift_result at 1. rewrite Hy.
    unfold bind at 1.
    rewrite (bind_Ok_step _ _ _ _ _ Hrest). reflexivity.
Qed.

Lemma cluster_iteration_returns (l : limits) (g : G) :
  min_points l <= max_points l -> min_x l <= max_x l ->
  min_y l <= max_y l ->
  exists r g', cluster_iteration l g = (Ok r, g').
Proof.
  intros Hp Hx Hy. unfold cluster_iteration.
  rewrite (bind_Ok_step _ _ _ _ _ (py_randint_ordered _ _ g Hx)).
  rewrite (bind_Ok_step _ _ _ _ _ (py_randint_ordered _ _ _ Hy)).
  unfold py_uniform at 1. unfold bind at 1.
  destruct (rs_uniform _ _ _) as [sg g3].
  rewrite (bind_Ok_step _ _ _ _ _ (py_randint_ordered _ _ _ Hp)).
  destruct (generate_cluster_loop_returns
              (Z.to_nat (fst (rs_randint (min_points l) (max_points l) g3)))
              (fst (rs_randint (min_x l) (max_x l) g))
              (fst (rs_randint (min_y l) (max_y l)
                      (snd (rs_randint (min_x l) (max_x l) g))))
              sg (snd (rs_randint (min_points l) (max_points l) g3)))
    as (pts & g5 & Hpts).
  unfold generate_cluster.
  rewrite (bind_Ok_step _ _ _ _ _ Hpts).
  eexists _, _. reflexivity.
Qed.

(** With the integer ranges in order and Gaussian draws that convert,
    [generate_clusters] returns, whatever the number of clusters. *)
Lemma generate_clusters_returns num_clusters (l : limits) (g : G) :
  min_points l <= max_points l -> min_x l <= max_x l ->
  min_y l <= max_y l ->
  exists clusters ground_truth g',
    generate_clusters num_clusters l g
      = (Ok (clusters, ground_truth), g').
Proof.
  intros Hp Hx Hy. unfold generate_clusters.
  generalize (@nil (list point)) (@nil cluster_data).
  revert g. induction (Z.to_nat num_clusters) as [| k IH];
    intros g cl gt; simpl.
  - eexists _, _, _. reflexivity.
  - destruct (cluster_iteration_returns l g Hp Hx Hy) as ([pts d] & g1 & Hit).
    rewrite (bind_Ok_step _ _ _ _ _ Hit). apply IH.
Qed.

End Totality.

(* ===================================================================== *)
(** * The sampler's invariants *)
(* ===================================================================== *)

Section SamplerClaims.
Context {G : Type} `{RandomSource G}.

(** C4.  The flattened point list is as long as the ['n'] fields of the
    ground truth add up to: whenever [generate_clusters] returns, the
    length of the concatenation of the clusters (the list [run] writes to
    the points file) equals the sum of the recorded point counts. *)
Theorem flat_points_length num_clusters (l : limits) (g g' : G)
    clusters ground_truth :
  generate_clusters num_clusters l g = (Ok (clusters, ground_truth), g') ->
  Z.of_nat (length (concat clusters)) = total_points ground_truth.
Proof.
  intros Hrun.
  apply generate_clusters_spec in Hrun as (rs & _ & Hits & -> & ->).
  symmetry. apply total_points_concat.
  eapply iterations_counts; eassumption.
Qed.

(** C5.  For a non-negative number of clusters, the ground truth returned
    by [generate_clusters] has exactly [num_clusters] entries, and they are
    in generation order: the loop ran a chain of iterations, each from the
    generator state the previous one left, and the i-th entry (and the i-th
    cluster) is what the i-th iteration produced. *)
Theorem ground_truth_length_and_order num_clusters (l : limits) (g g' : G)
    clusters ground_truth :
  0 <= num_clusters ->
  generate_clusters num_clusters l g = (Ok (clusters, ground_truth), g') ->
  Z.of_nat (length ground_truth) = num_clusters /\
  exists rs,
    iterations l g rs g' /\
    ground_truth = map snd rs /\
    clusters = map fst rs.
Proof.
  intros Hpos Hrun.
  apply generate_clusters_spec in Hrun as (rs & Hlen & Hits & -> & ->).
  split.
  - rewrite length_map, Hlen. lia.
  - exists rs. repeat split. exact Hits.
Qed.

(** C10.  Cluster by cluster: the two returned lists have the same length,
    the ['n'] field of entry [i] is the number of points of cluster [i],
    and these points are the block of that length of the flattened list
    that starts where the counts of the entries before [i] end. *)
Theorem ground_truth_counts_per_cluster num_clusters (l : limits)
    (g g' : G) clusters ground_truth :
  generate_clusters num_clusters l g = (Ok (clusters, ground_truth), g') ->
  length clusters = length ground_truth /\
  forall (i : nat) (pts : list point) (d : cluster_data),
    clusters !! i = Some pts ->
    ground_truth !! i = Some d ->
    n d = Z.of_nat (length pts) /\
    take (Z.to_nat (n d))
         (drop (Z.to_nat (total_points (take i ground_truth)))
               (concat clusters))
      = pts.
Proof.
  intros Hrun.
  apply generate_clusters_spec in Hrun as (rs & _ & Hits & -> & ->).
  apply iterations_counts in Hits.
  split; [now rewrite !length_map |].
  intros i pts d Hpts Hd.
  rewrite (map_fmap fst) in Hpts |- *.
  rewrite (map_fmap snd) in Hd |- *.
  rewrite list_lookup_fmap in Hpts. rewrite list_lookup_fmap in Hd.
  destruct (rs !! i) as [[pts' d'] |] eqn:Hi; [| discriminate].
  simpl in Hpts, Hd. injection Hpts as <-. injection Hd as <-.
  assert (Hn : n d' = Z.of_nat (length pts')).
  { eapply (proj1 (Forall_lookup _ rs) Hits) in Hi. exact Hi. }
  split; [exact Hn |].
  rewrite Hn, Nat2Z.id.
  rewrite <- fmap_take, total_points_concat
    by (apply Forall_take; exact Hits).
  rewrite Nat2Z.id, fmap_take.
  apply concat_block. rewrite list_lookup_fmap, Hi. reflexivity.
Qed.

(** C3, as amended.  With a generator that keeps [randint] and [uniform]
    inside their bounds and limits whose four pairs are in order, every
    entry of the ground truth has its centre inside the x and y ranges, its
    sigma inside the sigma range, and its point count between
    [max 0 min_points] and [max 0 max_points]. *)
Theorem ground_truth_within_limits `{!RandomSourceLaws G}
    num_clusters (l : limits) (g g' : G) clusters ground_truth :
  normalized l ->
  generate_clusters num_clusters l g = (Ok (clusters, ground_truth), g') ->
  Forall (within_limits l) ground_truth.
Proof.
  intros Hnorm Hrun.
  apply generate_clusters_spec in Hrun as (rs & _ & Hits & _ & ->).
  rewrite map_fmap. apply Forall_fmap.
  eapply iterations_within_limits; eassumption.
Qed.

End SamplerClaims.

Lemma small_generation :
  generate_clusters 3 small_limits 42
    = (Ok (small_clusters, small_ground_truth), small_final).
Proof. vm_compute. reflexivity. Qed.

Lemma small_limits_normalized : normalized small_limits.
Proof. unfold normalized. vm_compute. intuition discriminate. Qed.

Lemma flat_points_length_witness :
  generate_clusters 3 small_limits 42
    = (Ok (small_clusters, small_ground_truth), small_final) /\
  Z.of_nat (length (concat small_clusters))
    = total_points small_ground_truth.
Proof.
  split; [exact small_generation |].
  exact (flat_points_length 3 small_limits 42 small_final
           small_clusters small_ground_truth small_generation).
Defined.

Lemma ground_truth_length_and_order_witness :
  0 <= 3 /\
  generate_clusters 3 small_limits 42
    = (Ok (small_clusters, small_ground_truth), small_final) /\
  Z.of_nat (length small_ground_truth) = 3 /\
  exists rs,
    iterations small_limits 42 rs small_final /\
    small_ground_truth = map snd rs /\
    small_clusters = map fst rs.
Proof.
  split; [lia |]. split; [exact small_generation |].
  apply (ground_truth_length_and_order 3 small_limits 42 small_final
           small_clusters small_ground_truth); [lia | exact small_generation].
Defined.

Lemma ground_truth_counts_per_cluster_witness :
  generate_clusters 3 small_limits 42
    = (Ok (small_clusters, small_ground_truth), small_final) /\
  length small_clusters = length small_ground_truth /\
  forall (i : nat) (pts : list point) (d : cluster_data),
    small_clusters !! i = Some pts ->
    small_ground_truth !! i = Some d ->
    n d = Z.of_nat (length pts) /\
    take (Z.to_nat (n d))
         (drop (Z.to_nat (total_points (take i small_ground_truth)))
               (concat small_clusters))
      = pts.
Proof.
  split; [exact small_generation |].
  exact (ground_truth_counts_per_cluster 3 small_limits 42 small_final
           small_clusters small_ground_truth small_generation).
Defined.

Lemma ground_truth_within_limits_witness :
  normalized small_limits /\
  generate_clusters 3 small_limits 42
    = (Ok (small_clusters, small_ground_truth), small_final) /\
  Forall (within_limits small_limits) small_ground_truth.
Proof.
  split; [exact small_limits_normalized |].
  split; [exact small_generation |].
  exact (ground_truth_within_limits 3 small_limits 42 small_final
           small_clusters small_ground_truth
           small_limits_normalized small_generation).
Defined.

(** C3, as stated, fails on a point-count range below zero: the range is in
    order, the draw is inside it, and the cluster has no point, so that the
    recorded count is 0, outside the range. *)
Lemma ground_truth_within_limits_counterexample :
  normalized negative_count_limits /\
  generate_clusters 1 negative_count_limits 42
    = (Ok ([[]], [negative_count_entry]), negative_count_final) /\
  n negative_count_entry = 0 /\
  ~ within_stated_limits negative_count_limits negative_count_entry.
Proof.
  split; [unfold normalized; vm_compute; intuition discriminate |].
  split; [vm_compute; reflexivity |].
  split; [reflexivity |].
  unfold within_stated_limits. simpl. lia.
Qed.

(* ===================================================================== *)
(** * Conversion of the Gaussian draws *)
(* ===================================================================== *)

Lemma shiftr_bounds (m k : Z) :
  0 <= m -> 0 <= k ->
  Z.shiftr m k * 2 ^ k <= m < (Z.shiftr m k + 1) * 2 ^ k.
Proof.
  intros Hm Hk. rewrite Z.shiftr_div_pow2 by exact Hk.
  assert (Hpow : 0 < 2 ^ k) by (apply Z.pow_pos_nonneg; lia).
  pose proof (Z.div_mod m (2 ^ k) ltac:(lia)) as Hdm.
  pose proof (Z.mod_pos_bound m (2 ^ k) Hpow) as Hmod.
  nia.
Qed.

(** [int] on a float drops the fractional part. *)
Lemma py_int_of_float_truncation (f : float) (z : Z) :
  py_int_of_float f = Ok z -> truncation_of f z.
Proof.
  destruct f as [s | s | | s m e]; simpl; try discriminate.
  - intros [= <-]. reflexivity.
  - intros [= <-]. unfold float_numerator, float_denominator.
    destruct (Z.leb_spec 0 e) as [He | He].
    + rewrite Z.shiftl_mul_pow2 by exact He.
      rewrite (Z.max_l e 0), (Z.max_r (- e) 0) by lia.
      assert (Hpow : 0 < 2 ^ e) by (apply Z.pow_pos_nonneg; lia).
      change (2 ^ 0) with 1.
      destruct s; split; nia.
    + rewrite (Z.max_r e 0), (Z.max_l (- e) 0) by lia.
      change (2 ^ 0) with 1.
      pose proof (shiftr_bounds (Z.pos m) (- e) ltac:(lia) ltac:(lia)) as Hb.
      assert (Hq : 0 <= Z.shiftr (Z.pos m) (- e))
        by (apply Z.shiftr_nonneg; lia).
      assert (Hpow : 0 < 2 ^ (- e)) by (apply Z.pow_pos_nonneg; lia).
      destruct s; split; nia.
Qed.

(** The truncation is unique: [truncation_of] determines the integer. *)
Lemma truncation_of_unique (f : float) (z1 z2 : Z) :
  truncation_of f z1 -> truncation_of f z2 -> z1 = z2.
Proof.
  destruct f as [s | s | | s m e]; simpl; try tauto.
  - intros -> ->. reflexivity.
  - unfold float_numerator, float_denominator.
    set (num := (if s then _ else _) * _).
    assert (Hden : 0 < 2 ^ Z.max (- e) 0) by (apply Z.pow_pos_nonneg; lia).
    assert (Hnum : num <> 0).
    { unfold num.
      assert (0 < 2 ^ Z.max e 0) by (apply Z.pow_pos_nonneg; lia).
      destruct s; nia. }
    set (den := 2 ^ Z.max (- e) 0) in *.
    intros [[Hl1 Hu1] Hs1] [[Hl2 Hu2] Hs2].
    assert (Habs : Z.abs z1 = Z.abs z2) by nia.
    destruct (Z.abs_spec z1) as [[? ?] | [? ?]],
             (Z.abs_spec z2) as [[? ?] | [? ?]]; nia.
Qed.

Example int_of_minus_1_7 : py_int_of_float minus_1_7 = Ok (-1).
Proof. reflexivity. Qed.

Example minus_1_7_not_rounded : ~ truncation_of minus_1_7 (-2).
Proof.
  intros Hr.
  pose proof (py_int_of_float_truncation _ _ int_of_minus_1_7) as Ht.
  pose proof (truncation_of_unique _ _ _ Hr Ht). discriminate.
Qed.

(** C6.  Every point returned by [generate_cluster] has, for coordinates,
    what [int] makes of two Gaussian draws (around [mean_x], then around
    [mean_y], with the cluster's sigma), and [int] truncates towards zero:
    the magnitude of the coordinate is the integral part of the magnitude
    of the draw, and the sign is never flipped.  On -1.7 it gives -1. *)
Theorem generated_points_are_truncated {G : Type} `{RandomSource G}
    num_points mean_x mean_y sg (g g' : G) pts :
  generate_cluster num_points mean_x mean_y sg g = (Ok pts, g') ->
  Forall (truncated_draws mean_x mean_y sg) pts /\
  py_int_of_float minus_1_7 = Ok (-1).
Proof.
  unfold generate_cluster. intros Hrun.
  apply generate_cluster_loop_spec in Hrun as [_ Hall].
  split; [| reflexivity].
  eapply Forall_impl; [exact Hall |].
  intros p (fx & fy & g1 & g2 & g3 & Hfx & Hfy & Hx & Hy).
  exists fx, fy, g1, g2, g3.
  repeat split; try assumption; now apply py_int_of_float_truncation.
Qed.

Lemma two_points_generation :
  generate_cluster 2 10 (-20) sigma_5 7 = (Ok two_points, two_points_final).
Proof. vm_compute. reflexivity. Qed.

Lemma generated_points_are_truncated_witness :
  generate_cluster 2 10 (-20) sigma_5 7 = (Ok two_points, two_points_final) /\
  Forall (truncated_draws 10 (-20) sigma_5) two_points /\
  py_int_of_float minus_1_7 = Ok (-1).
Proof.
  split; [exact two_points_generation |].
  exact (generated_points_are_truncated 2 10 (-20) sigma_5 7
           two_points_final two_points two_points_generation).
Defined.

(* ===================================================================== *)
(** * The order of the draws *)
(* ===================================================================== *)

Section DrawOrder.
Context {G : Type} `{RandomSource G}.

(** *** Recording does not change the answers *)

Lemma observes_ret {A} (a : A) : observes (G := G) (ret a) (ret a).
Proof. intros g log. split; reflexivity. Qed.

Lemma observes_lift_result {A} (r : result A) :
  observes (G := G) (lift_result r) (lift_result r).
Proof. intros g log. split; reflexivity. Qed.

Lemma observes_bind {A B} (mr : M (G * list draw) A) (m : M G A)
    (kr : A -> M (G * list draw) B) (k : A -> M G B) :
  observes mr m -> (forall a, observes (kr a) (k a)) ->
  observes (bind mr kr) (bind m k).
Proof.
  intros Hm Hk g log. unfold bind.
  destruct (Hm g log) as [Hr Hg].
  destruct (mr (g, log)) as [r [g1 log1]], (m g) as [r' g1'].
  simpl in Hr, Hg. subst r' g1'.
  destruct r as [a | e]; [apply Hk | split; reflexivity].
Qed.

Lemma observes_randint a b : observes (py_randint a b) (py_randint a b).
Proof.
  intros g log. unfold py_randint. simpl.
  destruct (b <? a); [split; reflexivity |].
  destruct (rs_randint a b g). split; reflexivity.
Qed.

Lemma observes_uniform a b : observes (py_uniform a b) (py_uniform a b).
Proof.
  intros g log. unfold py_uniform. simpl.
  destruct (rs_uniform a b g). split; reflexivity.
Qed.

Lemma observes_gauss mu sg : observes (py_gauss mu sg) (py_gauss mu sg).
Proof.
  intros g log. unfold py_gauss. simpl.
  destruct (rs_gauss mu sg g). split; reflexivity.
Qed.

Lemma observes_generate_cluster_loop k mean_x mean_y sg :
  observes (generate_cluster_loop k mean_x mean_y sg)
           (generate_cluster_loop k mean_x mean_y sg).
Proof.
  induction k as [| k IH]; simpl; [apply observes_ret |].
  repeat (apply observes_bind; [| intros ?]);
    auto using observes_gauss, observes_lift_result, observes_ret.
Qed.

Lemma observes_cluster_iteration (l : limits) :
  observes (cluster_iteration l) (cluster_iteration l).
Proof.
  unfold cluster_iteration.
  repeat (apply observes_bind; [| intros ?]);
    auto using observes_randint, observes_uniform, observes_ret,
               observes_generate_cluster_loop.
  apply observes_generate_cluster_loop.
Qed.

Lemma observes_generate_clusters_loop k (l : limits) :
  forall clusters ground_truth,
    observes (generate_clusters_loop k l clusters ground_truth)
             (generate_clusters_loop k l clusters ground_truth).
Proof.
  induction k as [| k IH]; intros cl gt; simpl; [apply observes_ret |].
  apply observes_bind; [apply observes_cluster_iteration |].
  intros [pts d]. apply IH.
Qed.

(** Run on the recording generator, [generate_clusters] returns what it
    returns on the generator recorded, and leaves it in the same state. *)
Lemma observes_generate_clusters num_clusters (l : limits) :
  observes (generate_clusters num_clusters l)
           (generate_clusters num_clusters l).
Proof. apply observes_generate_clusters_loop. Qed.

(** *** What is recorded *)

Lemma recorded_randint a b (g g' : G) log log' r :
  py_randint a b (g, log) = (Ok r, (g', log')) ->
  log' = log ++ [DrawRandint a b].
Proof.
  unfold py_randint. destruct (b <? a); [discriminate |]. simpl.
  destruct (rs_randint a b g). intros [= _ _ <-]. reflexivity.
Qed.

Lemma recorded_uniform a b (g g' : G) log log' r :
  py_uniform a b (g, log) = (Ok r, (g', log')) ->
  log' = log ++ [DrawUniform a b].
Proof.
  unfold py_uniform. simpl.
  destruct (rs_uniform a b g). intros [= _ _ <-]. reflexivity.
Qed.

Lemma recorded_gauss mu sg (g g' : G) log log' r :
  py_gauss mu sg (g, log) = (Ok r, (g', log')) ->
  log' = log ++ [DrawGauss mu sg].
Proof.
  unfold py_gauss. simpl.
  destruct (rs_gauss mu sg g). intros [= _ _ <-]. reflexivity.
Qed.

Lemma recorded_generate_cluster_loop k mean_x mean_y sg :
  forall (g g' : G) log log' pts,
    generate_cluster_loop k mean_x mean_y sg (g, log)
      = (Ok pts, (g', log')) ->
    log' = log ++ flat_map (fun _ => [DrawGauss mean_x sg;
                                      DrawGauss mean_y sg]) pts.
Proof.
  induction k as [| k IH]; intros g g' log log' pts Hrun; simpl in Hrun.
  - injection Hrun as <- _ <-. simpl. now rewrite app_nil_r.
  - bind_split Hrun as fx s1 Hfx. destruct s1 as [g1 log1].
    bind_split Hrun as x s1' Hx. apply lift_result_Ok_inv in Hx as [_ ->].
    bind_split Hrun as fy s2 Hfy. destruct s2 as [g2 log2].
    bind_split Hrun as y s2' Hy. apply lift_result_Ok_inv in Hy as [_ ->].
    bind_split Hrun as rest s3 Hrest. destruct s3 as [g3 log3].
    injection Hrun as <- <- <-.
    apply recorded_gauss in Hfx, Hfy. apply IH in Hrest.
    subst. simpl. rewrite <- !app_assoc. reflexivity.
Qed.

Lemma recorded_cluster_iteration (l : limits) (g g' : G) log log' r :
  cluster_iteration l (g, log) = (Ok r, (g', log')) ->
  log' = log ++ iteration_draws l r.
Proof.
  unfold cluster_iteration. intros Hrun.
  bind_inv Hrun. destruct s as [g1 log1]. rename a into mx, Hm into Hmx.
  bind_inv Hrun. destruct s as [g2 log2]. rename a into my, Hm into Hmy.
  bind_inv Hrun. destruct s as [g3 log3]. rename a into sg, Hm into Hsg.
  bind_inv Hrun. destruct s as [g4 log4]. rename a into np, Hm into Hnp.
  bind_inv Hrun. destruct s as [g5 log5]. rename a into pts, Hm into Hpts.
  injection Hrun as <- <- <-.
  apply recorded_randint in Hmx, Hmy, Hnp. apply recorded_uniform in Hsg.
  apply recorded_generate_cluster_loop in Hpts.
  subst. unfold iteration_draws. simpl. rewrite <- !app_assoc. reflexivity.
Qed.

Lemma recorded_generate_clusters_loop k (l : limits) :
  forall clusters ground_truth (g g' : G) log log' clusters' ground_truth',
    length clusters = length ground_truth ->
    generate_clusters_loop k l clusters ground_truth (g, log)
      = (Ok (clusters', ground_truth'), (g', log')) ->
    log ++ flat_map (iteration_draws l)
             (drop (length clusters) (combine clusters' ground_truth'))
      = log'.
Proof.
  induction k as [| k IH];
    intros cl gt g g' log log' cl' gt' Hlen Hrun; simpl in Hrun.
  - injection Hrun as <- <- <- <-.
    rewrite drop_ge by (rewrite length_combine; lia).
    simpl. now rewrite app_nil_r.
  - bind_inv Hrun. destruct a as [pts d], s as [g1 log1]. rename Hm into Hit.
    pose proof Hrun as Hspec.
    apply generate_clusters_loop_spec in Hspec as (rs & _ & _ & Hcl & Hgt).
    apply IH in Hrun; [| rewrite !length_app; simpl; lia].
    apply recorded_cluster_iteration in Hit. subst log1.
    rewrite <- Hrun, <- app_assoc. f_equal.
    rewrite Hcl, Hgt, <- !app_assoc. simpl.
    rewrite length_app. simpl.
    assert (Hsplit : forall (xs : list (list point)) (ys : list cluster_data)
                            xs' ys',
               length xs = length ys ->
               combine (xs ++ xs') (ys ++ ys')
                 = combine xs ys ++ combine xs' ys').
    { induction xs as [| x xs IHx]; intros [| y ys] xs' ys' Hl;
        simpl in *; try discriminate; [reflexivity |].
      f_equal. apply IHx. lia. }
    rewrite Hsplit by exact Hlen.
    assert (Hc : length (combine cl gt) = length cl)
      by (rewrite length_combine; lia).
    rewrite <- Hc at 1. rewrite drop_app_length.
    replace (length cl + 1)%nat with (length (combine cl gt) + 1)%nat
      by (rewrite Hc; reflexivity).
    rewrite drop_app_add. simpl. rewrite drop_0. reflexivity.
Qed.

(** C2, as amended.  Recorded on any generator, the draws of a run of
    [generate_clusters] are, iteration after iteration and in this order:
    the centre x, the centre y, the sigma, the point count, then for each
    point its x and its y.  The first draw of an iteration is the centre x;
    the point count is the fourth. *)
Theorem draws_in_order num_clusters (l : limits) (g g' : G) log'
    clusters ground_truth :
  generate_clusters num_clusters l (g, [])
    = (Ok (clusters, ground_truth), (g', log')) ->
  log' = flat_map (iteration_draws l) (combine clusters ground_truth).
Proof.
  unfold generate_clusters. intros Hrun.
  apply recorded_generate_clusters_loop in Hrun; [| reflexivity].
  simpl in Hrun. rewrite drop_0 in Hrun. now symmetry.
Qed.

End DrawOrder.

Lemma small_recorded_generation :
  generate_clusters 3 small_limits (42, [])
    = (Ok (small_clusters, small_ground_truth),
       (small_final, small_recorded_draws)).
Proof. vm_compute. reflexivity. Qed.

Lemma draws_in_order_witness :
  generate_clusters 3 small_limits (42, [])
    = (Ok (small_clusters, small_ground_truth),
       (small_final, small_recorded_draws)) /\
  small_recorded_draws
    = flat_map (iteration_draws small_limits)
               (combine small_clusters small_ground_truth).
Proof.
  split; [exact small_recorded_generation |].
  exact (draws_in_order 3 small_limits 42 small_final small_recorded_draws
           small_clusters small_ground_truth small_recorded_generation).
Defined.

(** C2, as stated, fails: with a point-count range of 2 to 4 and an x range
    of 1000 to 2000, the first draw of the first iteration is the one for
    the centre x, not the one for the point count, which comes fourth. *)
Lemma draws_in_order_counterexample :
  head small_recorded_draws = Some (DrawRandint 1000 2000) /\
  head small_recorded_draws
    <> Some (DrawRandint (min_points small_limits) (max_points small_limits)) /\
  small_recorded_draws !! 3%nat
    = Some (DrawRandint (min_points small_limits) (max_points small_limits)).
Proof.
  split; [reflexivity |]. split; [| reflexivity].
  vm_compute. discriminate.
Qed.

(* ===================================================================== *)
(** * The text of the output files *)
(* ===================================================================== *)

(** ** Strings *)

#[local] Arguments String.append !s1 s2 : simpl nomatch.

Lemma append_assoc (a b c : string) : (a +:+ b) +:+ c = a +:+ (b +:+ c).
Proof. induction a as [| x a IH]; simpl; [reflexivity | f_equal; exact IH]. Qed.

Lemma append_empty_r (a : string) : a +:+ "" = a.
Proof. induction a as [| x a IH]; simpl; [reflexivity | f_equal; exact IH]. Qed.

Lemma string_forallb_append test (a b : string) :
  string_forallb test (a +:+ b)
    = string_forallb test a && string_forallb test b.
Proof.
  induction a as [| x a IH]; simpl; [reflexivity |].
  now rewrite IH, andb_assoc.
Qed.

Lemma string_forallb_impl (test1 test2 : ascii -> bool) (s : string) :
  (forall c, test1 c = true -> test2 c = true) ->
  string_forallb test1 s = true -> string_forallb test2 s = true.
Proof.
  intros Himp. induction s as [| c s IH]; simpl; [reflexivity |].
  intros [Hc Hs]%andb_true_iff. apply andb_true_iff. auto.
Qed.

(** ** The decimal form of an integer *)

Lemma no_space_string_of_uint (d : uint) :
  no_space (NilEmpty.string_of_uint d) = true.
Proof. induction d; simpl; try reflexivity; exact IHd. Qed.

Lemma str_int_no_space (z : Z) : no_space (str_int z) = true.
Proof.
  unfold str_int, NilZero.string_of_int, NilZero.string_of_uint.
  destruct (Z.to_int z) as [d | d]; destruct d; simpl; try reflexivity;
    apply no_space_string_of_uint.
Qed.

Lemma str_int_nonempty (z : Z) : str_int z <> "".
Proof.
  unfold str_int, NilZero.string_of_int, NilZero.string_of_uint.
  destruct (Z.to_int z) as [d | d]; destruct d; discriminate.
Qed.

(** [int(str(z))] is [z]. *)
Lemma py_int_of_str_str_int (z : Z) : py_int_of_str (str_int z) = Some z.
Proof.
  unfold py_int_of_str, str_int.
  rewrite NilZero.isi.
  - simpl. now rewrite DecimalZ.of_to.
  - destruct z; simpl; try discriminate.
    intros [= Hnil]. now apply (DecimalPos.Unsigned.to_uint_nonnil p).
  - destruct z; simpl; try discriminate.
    intros [= Hnil]. now apply (DecimalPos.Unsigned.to_uint_nonnil p).
Qed.

(** ** Splitting *)

Lemma split_from_word (w : string) :
  forall word rest,
    no_space w = true ->
    split_from word (w +:+ rest) = split_from (word +:+ w) rest.
Proof.
  induction w as [| c w IH]; intros word rest Hw; simpl.
  - now rewrite append_empty_r.
  - simpl in Hw. apply andb_true_iff in Hw as [Hc Hw].
    apply negb_true_iff in Hc. rewrite Hc.
    rewrite IH by exact Hw. now rewrite append_assoc.
Qed.

Lemma py_split_two (a b : string) :
  no_space a = true -> no_space b = true -> a <> "" -> b <> "" ->
  py_split (a +:+ " " +:+ b) = [a; b].
Proof.
  intros Ha Hb Hna Hnb. unfold py_split.
  rewrite split_from_word by exact Ha. simpl.
  destruct (String.eqb_spec a "") as [-> | _]; [congruence |].
  f_equal.
  rewrite <- (append_empty_r b) at 1.
  rewrite split_from_word by exact Hb. simpl.
  destruct (String.eqb_spec b "") as [-> | _]; [congruence | reflexivity].
Qed.

Lemma format_point_pair (x y : Z) :
  format_point (x, y) = str_int x +:+ " " +:+ str_int y.
Proof. reflexivity. Qed.

(** A line written for a point reads back as that point. *)
Lemma parse_point_format_point (p : point) :
  parse_point (format_point p) = Some p.
Proof.
  destruct p as [x y]. unfold parse_point. rewrite format_point_pair.
  rewrite py_split_two
    by auto using str_int_no_space, str_int_nonempty.
  now rewrite !py_int_of_str_str_int.
Qed.

Lemma format_point_no_newline (p : point) :
  no_newline (format_point p) = true.
Proof.
  destruct p as [x y]. rewrite format_point_pair. unfold no_newline.
  rewrite string_forallb_append. simpl.
  apply andb_true_iff. split;
    (eapply string_forallb_impl; [| apply str_int_no_space]);
    intros c Hc; apply negb_true_iff in Hc; apply negb_true_iff;
    destruct (Ascii.eqb_spec c "010"%char) as [-> | _];
    try reflexivity; discriminate Hc.
Qed.

Lemma format_point_nonempty (p : point) : format_point p <> "".
Proof.
  destruct p as [x y]. rewrite format_point_pair.
  pose proof (str_int_nonempty x). destruct (str_int x); [congruence |].
  discriminate.
Qed.

Lemma lines_from_line (w : string) :
  forall line rest,
    no_newline w = true ->
    lines_from line (w +:+ newline +:+ rest)
      = (line +:+ w) :: lines_from "" rest.
Proof.
  induction w as [| c w IH]; intros line rest Hw.
  - change ("" +:+ newline +:+ rest) with (String "010"%char rest).
    cbn [lines_from]. rewrite Ascii.eqb_refl. now rewrite append_empty_r.
  - change (String c w +:+ newline +:+ rest)
      with (String c (w +:+ newline +:+ rest)).
    cbn [lines_from].
    simpl in Hw. apply andb_true_iff in Hw as [Hc Hw].
    apply negb_true_iff in Hc. rewrite Hc.
    rewrite IH by exact Hw. rewrite append_assoc. reflexivity.
Qed.

(** The lines of the text written for a list of points are the lines of
    the points, in order. *)
Lemma text_lines_points_text (points : list point) :
  text_lines (points_text points) = map format_point points.
Proof.
  unfold text_lines.
  induction points as [| p points IH]; [reflexivity |].
  cbn [points_text map].
  rewrite lines_from_line by apply format_point_no_newline.
  now rewrite IH.
Qed.

Lemma read_points_points_text (points : list point) :
  read_points (points_text points) = Some points.
Proof.
  unfold read_points. rewrite text_lines_points_text.
  induction points as [| p points IH]; [reflexivity |].
  simpl. rewrite parse_point_format_point. simpl.
  rewrite IH. reflexivity.
Qed.

(** ** Writing to the reference file system *)

Lemma mem_write_points (points : list point) (path : string) :
  forall (fs : mem_fs) (old : string),
    (length points <= mf_room fs)%nat ->
    mf_text fs !! path = Some old ->
    write_points_to_file points path fs
      = (Ok tt, {| mf_text := <[path := old +:+ points_text points]> (mf_text fs);
                   mf_readonly := mf_readonly fs;
                   mf_room := mf_room fs - length points |}).
Proof.
  induction points as [| p points IH]; intros fs old Hroom Hold.
  - simpl. unfold ret. f_equal. destruct fs as [text ro room]. simpl in *.
    f_equal; [| lia].
    rewrite append_empty_r. symmetry. now apply insert_id.
  - cbn [write_points_to_file]. unfold bind. cbn [fs_print mem_file_system].
    unfold mem_print. simpl in Hroom.
    destruct (mf_room fs) as [| room] eqn:Hr; [lia |].
    rewrite (IH _ (old +:+ format_point p +:+ newline)).
    + cbn [mf_text mf_readonly mf_room]. rewrite Hold. cbn [default].
      rewrite insert_insert_eq. cbn [points_text length].
      rewrite !append_assoc. reflexivity.
    + cbn [mf_room]. lia.
    + cbn [mf_text]. rewrite Hold. cbn [default]. apply lookup_insert_eq.
Qed.

Lemma mem_with_open_write_points (points : list point) (path : string)
    (fs : mem_fs) :
  path ∉ mf_readonly fs ->
  (length points <= mf_room fs)%nat ->
  with_open path (write_points_to_file points) fs
    = (Ok tt, {| mf_text := <[path := points_text points]> (mf_text fs);
                 mf_readonly := mf_readonly fs;
                 mf_room := mf_room fs - length points |}).
Proof.
  intros Hro Hroom. unfold with_open. cbn [fs_open_wt mem_file_system].
  unfold mem_open_wt. rewrite bool_decide_eq_false_2 by exact Hro.
  rewrite (mem_write_points points path _ "").
  - cbn [fs_close mem_file_system mem_close mf_text mf_readonly mf_room].
    rewrite insert_insert_eq. reflexivity.
  - exact Hroom.
  - apply lookup_insert_eq.
Qed.

(** C7.  On the reference file system, with a path that can be opened and
    room for the lines, [write_points_to_file] under [with open] succeeds
    and leaves at that path a text whose lines are, in the order of the
    list, the decimal forms of the two components of each point joined by
    one space; each line, split on whitespace and its two fields parsed as
    integers, gives back the point it was written for, so that reading the
    file gives back the list. *)
Theorem written_points_read_back (points : list point) (path : string)
    (fs : mem_fs) :
  path ∉ mf_readonly fs ->
  (length points <= mf_room fs)%nat ->
  exists fs' text,
    with_open path (write_points_to_file points) fs = (Ok tt, fs') /\
    mf_text fs' !! path = Some text /\
    text_lines text
      = map (fun p => str_int (fst p) +:+ " " +:+ str_int (snd p)) points /\
    Forall2 (fun line p => parse_point line = Some p)
            (text_lines text) points /\
    read_points text = Some points.
Proof.
  intros Hro Hroom. eexists _, (points_text points).
  split; [apply mem_with_open_write_points; assumption |].
  split; [apply lookup_insert_eq |].
  split; [rewrite text_lines_points_text; apply map_ext; now intros [x y] |].
  split; [| apply read_points_points_text].
  rewrite text_lines_points_text.
  induction points as [| p points IH]; constructor.
  - apply parse_point_format_point.
  - apply IH. simpl in Hroom. lia.
Qed.

Lemma written_points_read_back_witness :
  ("points.txt" ∉ mf_readonly empty_fs) /\
  (length (concat small_clusters) <= mf_room empty_fs)%nat /\
  exists fs' text,
    with_open "points.txt" (write_points_to_file (concat small_clusters))
              empty_fs = (Ok tt, fs') /\
    mf_text fs' !! "points.txt" = Some text /\
    text_lines text
      = map (fun p => str_int (fst p) +:+ " " +:+ str_int (snd p))
            (concat small_clusters) /\
    Forall2 (fun line p => parse_point line = Some p)
            (text_lines text) (concat small_clusters) /\
    read_points text = Some (concat small_clusters).
Proof.
  assert (Hro : "points.txt" ∉ mf_readonly empty_fs)
    by (simpl; apply not_elem_of_nil).
  assert (Hroom : (length (concat small_clusters) <= mf_room empty_fs)%nat)
    by (vm_compute; lia).
  split; [exact Hro |]. split; [exact Hroom |].
  exact (written_points_read_back (concat small_clusters) "points.txt"
           empty_fs Hro Hroom).
Defined.

(* ===================================================================== *)
(** * The pipeline, step by step *)
(* ===================================================================== *)

Section PipelineFacts.
Context {G F P : Type} `{RandomSource G} `{FileSystem F} `{Plotter P}.
Variable str_float : float -> string.
Variable script_name : string.

Lemma print_all_spec (lines : list string) (w : world G F P) :
  print_all lines w
    = (Ok tt, {| w_random := w_random w; w_files := w_files w;
                 w_console := w_console w ++ lines;
                 w_display := w_display w |}).
Proof.
  revert w. induction lines as [| line lines IH]; intros w; simpl.
  - unfold ret. rewrite app_nil_r. now destruct w.
  - unfold bind, print. rewrite IH. simpl.
    now rewrite <- app_assoc.
Qed.

Lemma print_parameters_spec (a : args) (w : world G F P) :
  print_parameters str_float script_name a w
    = (Ok tt, {| w_random := w_random w; w_files := w_files w;
                 w_console := w_console w
                              ++ parameter_lines str_float script_name a;
                 w_display := w_display w |}).
Proof.
  unfold print_parameters, bind, print, parameter_lines. simpl.
  now rewrite <- app_assoc.
Qed.

Lemma print_ground_truth_from_spec (ground_truth : list cluster_data) :
  forall (number : nat) (w : world G F P),
    print_ground_truth_from str_float number ground_truth w
      = (Ok tt, {| w_random := w_random w; w_files := w_files w;
                   w_console := w_console w
                     ++ ground_truth_lines_from str_float number ground_truth;
                   w_display := w_display w |}).
Proof.
  induction ground_truth as [| d rest IH]; intros number w.
  - simpl. unfold ret. rewrite app_nil_r. now destruct w.
  - cbn [print_ground_truth_from ground_truth_lines_from]. unfold bind.
    rewrite print_all_spec, IH. cbn [w_random w_files w_console w_display].
    now rewrite <- app_assoc.
Qed.

Lemma print_ground_truth_spec (ground_truth : list cluster_data) (w : world G F P) :
  print_ground_truth str_float ground_truth w
    = (Ok tt, {| w_random := w_random w; w_files := w_files w;
                 w_console := w_console w
                   ++ "Ground truth:"
                      :: ground_truth_lines_from str_float 0 ground_truth;
                 w_display := w_display w |}).
Proof.
  unfold print_ground_truth, bind, print.
  rewrite print_ground_truth_from_spec.
  cbn [w_random w_files w_console w_display].
  now rewrite <- app_assoc.
Qed.

(** [run], one step after the other: the states each step starts from and
    the step at which an exception stops it. *)
Lemma run_steps (pyplot : bool) (a : args) (w : world G F P) :
  run str_float script_name pyplot a w
  = match generate_clusters (num_clusters a) (limits_of_args a)
            (rs_seed (seed a) (w_random w)) with
    | (Raise e, g1) =>
        (Raise e, {| w_random := g1; w_files := w_files w;
                     w_console := w_console w; w_display := w_display w |})
    | (Ok (clusters, ground_truth), g1) =>
        match with_open (points_file a)
                (write_points_to_file (concat clusters)) (w_files w) with
        | (Raise e, fs1) =>
            (Raise e, {| w_random := g1; w_files := fs1;
                         w_console := w_console w;
                         w_display := w_display w |})
        | (Ok _, fs1) =>
            match with_open (centroids_file a)
                    (write_points_to_file (map mean ground_truth)) fs1 with
            | (Raise e, fs2) =>
                (Raise e, {| w_random := g1; w_files := fs2;
                             w_console := w_console w;
                             w_display := w_display w |})
            | (Ok _, fs2) =>
                let (r, d) :=
                  show_plot pyplot (concat clusters) (map mean ground_truth)
                    ("$k=" +:+ str_int (num_clusters a) +:+ "$ random clusters")
                    (w_display w) in
                (r, {| w_random := g1; w_files := fs2;
                       w_console := w_console w
                         ++ report_lines str_float script_name a ground_truth;
                       w_display := d |})
            end
        end
    end.
Proof.
  unfold run.
  unfold bind at 1. unfold on_random at 1, py_seed.
  cbn [w_random w_files w_console w_display].
  unfold bind at 1. unfold on_random at 1.
  cbn [w_random w_files w_console w_display].
  destruct (generate_clusters _ _ _) as [[[clusters ground_truth] | e] g1];
    [| reflexivity].
  unfold bind at 1. unfold on_files at 1.
  cbn [w_random w_files w_console w_display].
  destruct (with_open (points_file a) _ _) as [[[] | e] fs1]; [| reflexivity].
  unfold bind at 1. unfold on_files at 1.
  cbn [w_random w_files w_console w_display].
  destruct (with_open (centroids_file a) _ _) as [[[] | e] fs2];
    [| reflexivity].
  unfold bind at 1. rewrite print_parameters_spec.
  unfold bind at 1. rewrite print_ground_truth_spec.
  unfold on_display. cbn [w_random w_files w_console w_display].
  unfold report_lines. rewrite <- app_assoc. reflexivity.
Qed.

End PipelineFacts.

(** X15.  The two files of a run on the reference file system read back
    as the flattened points and as the centres, when their paths differ,
    can be opened, and the device has room for every line. *)
Lemma run_files_read_back {G P : Type} `{RandomSource G} `{Plotter P}
    (str_float : float -> string) (script_name : string) (pyplot : bool)
    (a : args) (w : world G mem_fs P) clusters ground_truth (g1 : G) :
  generate_clusters (num_clusters a) (limits_of_args a)
      (rs_seed (seed a) (w_random w))
    = (Ok (clusters, ground_truth), g1) ->
  points_file a <> centroids_file a ->
  ~ In (points_file a) (mf_readonly (w_files w)) ->
  ~ In (centroids_file a) (mf_readonly (w_files w)) ->
  (length (concat clusters) + length ground_truth
     <= mf_room (w_files w))%nat ->
  let files := mf_text (w_files (snd (run str_float script_name pyplot a w))) in
  (exists text, files !! points_file a = Some text /\
                read_points text = Some (concat clusters)) /\
  (exists text, files !! centroids_file a = Some text /\
                read_points text = Some (map mean ground_truth)).
Proof.
  intros Hgen Hdiff Hp Hc Hroom. cbv zeta.
  rewrite run_steps, Hgen.
  rewrite mem_with_open_write_points;
    [| now rewrite list_elem_of_In | lia].
  rewrite mem_with_open_write_points;
    [| cbn [mf_readonly]; now rewrite list_elem_of_In
     | cbn [mf_room]; rewrite length_map; lia].
  destruct (show_plot _ _ _ _ _) as [r d].
  cbn [snd w_files mf_text]. split.
  - exists (points_text (concat clusters)). split.
    + rewrite lookup_insert_ne by congruence. apply lookup_insert_eq.
    + apply read_points_points_text.
  - exists (points_text (map mean ground_truth)). split.
    + apply lookup_insert_eq.
    + apply read_points_points_text.
Qed.

(* ===================================================================== *)
(** * Failures of the file writes *)
(* ===================================================================== *)

Section Persistence.
Context {G F P : Type} `{RandomSource G} `{FileSystem F} `{Plotter P}.
Variable str_float : float -> string.
Variable script_name : string.
Variable pyplot : bool.

(** When [open] raises, the [with] statement raises the same exception and
    its body does not run: the file system is as the failed [open] left
    it. *)
Lemma with_open_open_fails (path : string) (body : fs_handle -> M F unit)
    (fs fs' : F) (e : exn) :
  fs_open_wt path fs = (Raise e, fs') ->
  with_open path body fs = (Raise e, fs').
Proof. unfold with_open. intros ->. reflexivity. Qed.

(** The file is closed on the way out of a failing body, and the failure
    is not swallowed. *)
Lemma with_open_body_fails (path : string) (body : fs_handle -> M F unit)
    (fs fs1 fs2 : F) (file : fs_handle) (e : exn) :
  fs_open_wt path fs = (Ok file, fs1) ->
  body file fs1 = (Raise e, fs2) ->
  exists e', with_open path body fs = (Raise e', snd (fs_close file fs2)).
Proof.
  unfold with_open. intros -> ->.
  destruct (fs_close file fs2) as [[[] | e'] fs3]; eexists; reflexivity.
Qed.

(** X21.  The first failing [print] ends [write_points_to_file]: on any
    file system, when the points before [p] are written and the [print]
    for [p] raises, the write raises that exception with the file system
    as that [print] left it; the points after [p] are not written. *)
Lemma write_points_first_failure (before after : list point) (p : point)
    (file : fs_handle) (fs fs1 fs2 : F) (e : exn) :
  write_points_to_file before file fs = (Ok tt, fs1) ->
  fs_print file (format_point p) fs1 = (Raise e, fs2) ->
  write_points_to_file (before ++ p :: after) file fs = (Raise e, fs2).
Proof.
  revert fs. induction before as [| q before IH]; intros fs Hb Hp; simpl.
  - injection Hb as <-. unfold bind. now rewrite Hp.
  - simpl in Hb. unfold bind in Hb |- *.
    destruct (fs_print file (format_point q) fs) as [[[] | e0] fs0];
      [| discriminate].
    now apply IH.
Qed.

(** A [print] that raises ends the loop of [write_points_to_file], the
    points before it being written. *)
Lemma write_points_raises_at (before after : list point) (p : point)
    (file : fs_handle) :
  forall (fs fs1 fs2 : F) (e : exn),
    write_points_to_file before file fs = (Ok tt, fs1) ->
    fs_print file (format_point p) fs1 = (Raise e, fs2) ->
    write_points_to_file (before ++ p :: after) file fs = (Raise e, fs2).
Proof.
  induction before as [| q before IH]; intros fs fs1 fs2 e Hb Hp.
  - injection Hb as <-. cbn [app write_points_to_file]. unfold bind.
    now rewrite Hp.
  - cbn [app write_points_to_file] in Hb |- *. unfold bind in Hb |- *.
    destruct (fs_print file (format_point q) fs) as [[[] | e0] fs0];
      [| discriminate Hb].
    eapply IH; eassumption.
Qed.

(** When [write_points_to_file] raises, a [print] raised, and the points
    before it were written. *)
Lemma write_points_raise_inv (points : list point) (file : fs_handle) :
  forall (fs fs3 : F) (e : exn),
    write_points_to_file points file fs = (Raise e, fs3) ->
    exists before p after fs2,
      points = before ++ p :: after /\
      write_points_to_file before file fs = (Ok tt, fs2) /\
      fs_print file (format_point p) fs2 = (Raise e, fs3).
Proof.
  induction points as [| q points IH]; intros fs fs3 e Hrun.
  - discriminate Hrun.
  - cbn [write_points_to_file] in Hrun. unfold bind in Hrun.
    destruct (fs_print file (format_point q) fs) as [[[] | e0] fs0] eqn:Hq.
    + apply IH in Hrun as (before & p & after & fs2 & -> & Hb & Hp).
      exists (q :: before), p, after, fs2.
      split; [reflexivity |]. split; [| exact Hp].
      cbn [write_points_to_file]. unfold bind. now rewrite Hq.
    + injection Hrun as <- <-.
      exists [], q, points, fs. repeat split. exact Hq.
Qed.

(** A failure of one of the calls of the [with] statement is a failure of
    the statement: the exception of [open], of a [print] or of the close
    leaves it, and nothing is done to the file system after the close. *)
Lemma write_fails_with_open (path : string) (points : list point)
    (fs fs' : F) (e : exn) :
  write_fails path points fs e fs' ->
  with_open path (write_points_to_file points) fs = (Raise e, fs').
Proof.
  intros [e1 fs1 Hopen
         | file fs1 before p after fs2 e1 fs3 fs4 Hopen -> Hb Hp Hclose
         | file fs1 before p after fs2 e0 fs3 e1 fs4 Hopen -> Hb Hp Hclose
         | file fs1 fs2 e1 fs3 Hopen Hb Hclose];
    unfold with_open; rewrite Hopen.
  - reflexivity.
  - rewrite (write_points_raises_at _ _ _ _ _ _ _ _ Hb Hp), Hclose.
    reflexivity.
  - rewrite (write_points_raises_at _ _ _ _ _ _ _ _ Hb Hp), Hclose.
    reflexivity.
  - rewrite Hb, Hclose. reflexivity.
Qed.

(** Conversely, the [with] statement raises only when one of its calls to
    the file system did. *)
Lemma with_open_raise_inv (path : string) (points : list point)
    (fs fs' : F) (e : exn) :
  with_open path (write_points_to_file points) fs = (Raise e, fs') ->
  write_fails path points fs e fs'.
Proof.
  unfold with_open.
  destruct (fs_open_wt path fs) as [[file | e0] fs1] eqn:Hopen.
  - destruct (write_points_to_file points file fs1) as [[[] | e1] fs2]
      eqn:Hbody.
    + intros Hclose. eapply close_raises; eassumption.
    + apply write_points_raise_inv in Hbody
        as (before & p & after & fs0 & -> & Hb & Hp).
      destruct (fs_close file fs2) as [[[] | e2] fs3] eqn:Hclose;
        intros [= <- <-].
      * eapply print_raises; try eassumption. reflexivity.
      * eapply print_and_close_raise; try eassumption. reflexivity.
  - intros [= <- <-]. now apply open_raises.
Qed.

(** C8.  When the write of the points file fails, that is when its [open]
    raises, or one of its [print] calls raises, or its close raises, [run]
    raises the exception that leaves the [with] statement (the one of
    [open], of the [print], or of the close) and the centroids file is not
    written: the file system is left as the close of the points file (or
    its failed [open]) left it.  The same holds of the centroids file once
    the points file is written.  In both cases nothing is printed and
    nothing is plotted. *)
Theorem persistence_failure_aborts_run (a : args) (w : world G F P)
    clusters ground_truth (g1 : G) (e : exn) (fs' : F) :
  generate_clusters (num_clusters a) (limits_of_args a)
      (rs_seed (seed a) (w_random w))
    = (Ok (clusters, ground_truth), g1) ->
  persistence_fails a clusters ground_truth (w_files w) e fs' ->
  run str_float script_name pyplot a w
    = (Raise e, {| w_random := g1; w_files := fs';
                   w_console := w_console w;
                   w_display := w_display w |}).
Proof.
  intros Hgen Hfail. rewrite run_steps, Hgen.
  destruct Hfail as [e fs' Hpoints | e fs1 fs' Hpoints Hcentroids].
  - now rewrite (write_fails_with_open _ _ _ _ _ Hpoints).
  - rewrite Hpoints.
    now rewrite (write_fails_with_open _ _ _ _ _ Hcentroids).
Qed.

End Persistence.

Lemma small_args_generation :
  generate_clusters (num_clusters small_args) (limits_of_args small_args)
      (rs_seed (seed small_args) (w_random locked_world))
    = (Ok (small_clusters, small_ground_truth), small_final).
Proof. vm_compute. reflexivity. Qed.

Lemma locked_points_file_fails :
  persistence_fails small_args small_clusters small_ground_truth
    (w_files locked_world) (OSError "Permission denied") locked_fs.
Proof.
  apply points_write_fails, open_raises. vm_compute. reflexivity.
Qed.

Lemma persistence_failure_aborts_run_witness :
  generate_clusters (num_clusters small_args) (limits_of_args small_args)
      (rs_seed (seed small_args) (w_random locked_world))
    = (Ok (small_clusters, small_ground_truth), small_final) /\
  persistence_fails small_args small_clusters small_ground_truth
    (w_files locked_world) (OSError "Permission denied") locked_fs /\
  run float_text generate_py true small_args locked_world
    = (Raise (OSError "Permission denied"),
       {| w_random := small_final; w_files := locked_fs;
          w_console := w_console locked_world;
          w_display := w_display locked_world |}).
Proof.
  split; [exact small_args_generation |].
  split; [exact locked_points_file_fails |].
  exact (persistence_failure_aborts_run float_text generate_py true
           small_args locked_world small_clusters small_ground_truth
           small_final (OSError "Permission denied") locked_fs
           small_args_generation locked_points_file_fails).
Defined.

(** With [points.txt] locked, the run fails and no [centroids.txt]
    appears. *)
Example locked_points_no_centroids :
  let r := run float_text generate_py true small_args locked_world in
  fst r = Raise (OSError "Permission denied") /\
  mf_text (w_files (snd r)) !! "centroids.txt" = None /\
  w_console (snd r) = [] /\ w_display (snd r) = [].
Proof. vm_compute. repeat split; reflexivity. Qed.

(** With the device full after four lines, the fifth point cannot be
    written: the run fails and no [centroids.txt] appears. *)
Example full_device_no_centroids :
  let r := run float_text generate_py true small_args full_world in
  fst r = Raise (OSError "No space left on device") /\
  mf_text (w_files (snd r)) !! "centroids.txt" = None /\
  w_console (snd r) = [] /\ w_display (snd r) = [].
Proof. vm_compute. repeat split; reflexivity. Qed.
(** The same failure, call by call: [points.txt] opens, the first four
    points are written, the [print] of the fifth raises, the close
    succeeds. *)
Lemma full_points_file_fails :
  persistence_fails small_args small_clusters small_ground_truth
    (w_files full_world) (OSError "No space left on device")
    (w_files (snd (run float_text generate_py true small_args full_world))).
Proof.
  apply points_write_fails.
  eapply print_raises with (before := take 4 (concat small_clusters))
                           (p := (1851, 1689))
                           (after := drop 5 (concat small_clusters)).
  - reflexivity.
  - reflexivity.
  - reflexivity.
  - reflexivity.
  - vm_compute. reflexivity.
Qed.


(* ===================================================================== *)
(** * The optional plot *)
(* ===================================================================== *)

Section OptionalPlot.
Context {G F P : Type} `{RandomSource G} `{FileSystem F} `{Plotter P}.
Variable str_float : float -> string.
Variable script_name : string.

(** Without [pyplot], [show_plot] returns at once. *)
Lemma show_plot_unavailable (points centroids : list point)
    (title : string) (d : P) :
  show_plot false points centroids title d = (Ok tt, d).
Proof. reflexivity. Qed.

(** C9.  Without [matplotlib], [show_plot] returns without an exception
    and without touching the display.  A run without it leaves the
    generator, the files and the console exactly as the run with it does,
    and leaves the display untouched; and when it ends on an exception, the
    run with [matplotlib] ends on the same one, so that the exception does
    not come from the plot. *)
Theorem plot_unavailable_is_skipped (a : args) (w : world G F P)
    (points centroids : list point) (title : string) :
  let without := run str_float script_name false a w in
  let with_plot := run str_float script_name true a w in
  show_plot false points centroids title (w_display w)
    = (Ok tt, w_display w) /\
  w_random (snd without) = w_random (snd with_plot) /\
  w_files (snd without) = w_files (snd with_plot) /\
  w_console (snd without) = w_console (snd with_plot) /\
  w_display (snd without) = w_display w /\
  (fst without = fst with_plot \/ fst without = Ok tt).
Proof.
  cbv zeta. rewrite !run_steps.
  split; [reflexivity |].
  destruct (generate_clusters _ _ _) as [[[clusters ground_truth] | e] g1];
    [| repeat split; auto].
  destruct (with_open (points_file a) _ _) as [[[] | e] fs1];
    [| repeat split; auto].
  destruct (with_open (centroids_file a) _ _) as [[[] | e] fs2];
    [| repeat split; auto].
  rewrite show_plot_unavailable.
  destruct (show_plot true _ _ _ _) as [r d].
  simpl. repeat split; auto.
Qed.

End OptionalPlot.

(* ===================================================================== *)
(** * Bounds given out of order *)
(* ===================================================================== *)

Lemma py_min_int_min (a b : Z) : py_min_int a b = Z.min a b.
Proof. unfold py_min_int. destruct (Z.ltb_spec b a); lia. Qed.

Lemma py_min_int_idem (a b : Z) :
  py_min_int (py_min_int a b) b = py_min_int a b.
Proof. rewrite !py_min_int_min. lia. Qed.

Lemma float_ltb_irrefl (a : float) : float_ltb a a = false.
Proof.
  unfold float_ltb, SFltb.
  destruct a as [s | s | | s m e]; simpl; try reflexivity.
  - now destruct s.
  - rewrite Z.compare_refl, Pos.compare_cont_refl. now destruct s.
Qed.

Lemma py_min_float_idem (a b : float) :
  py_min_float (py_min_float a b) b = py_min_float a b.
Proof.
  unfold py_min_float. destruct (float_ltb b a) eqn:Hba.
  - now rewrite float_ltb_irrefl.
  - now rewrite Hba.
Qed.

Lemma limits_of_lowered_args (a : args) :
  limits_of_args (lowered_args a) = limits_of_args a.
Proof.
  unfold limits_of_args, lowered_args. simpl.
  now rewrite !py_min_int_idem, py_min_float_idem.
Qed.

Section OutOfOrder.
Context {G F P : Type} `{RandomSource G} `{FileSystem F} `{Plotter P}.
Variable str_float : float -> string.
Variable script_name : string.
Variable pyplot : bool.

(** C1, as amended.  [run] lowers the lower bound of each pair to
    [min(lower, upper)] and uses the upper bound as given; the pair is not
    swapped.  So the effective integer ranges run from [Z.min lower upper]
    to [upper], a pair given out of order collapses to the single value
    [upper], and a run behaves as the run on the arguments with the lower
    bounds so lowered: same limits, same outcome, same generator state,
    same files, same display. *)
Theorem out_of_order_bounds_are_lowered (a : args) (w : world G F P) :
  let l := limits_of_args a in
  let given := run str_float script_name pyplot a w in
  let lowered := run str_float script_name pyplot (lowered_args a) w in
  (min_points l = Z.min (arg_min_points a) (arg_max_points a) /\
   max_points l = arg_max_points a) /\
  (min_x l = Z.min (arg_min_x a) (arg_max_x a) /\ max_x l = arg_max_x a) /\
  (min_y l = Z.min (arg_min_y a) (arg_max_y a) /\ max_y l = arg_max_y a) /\
  (min_sigma l = py_min_float (arg_min_sigma a) (arg_max_sigma a) /\
   max_sigma l = arg_max_sigma a) /\
  limits_of_args (lowered_args a) = l /\
  fst given = fst lowered /\
  w_random (snd given) = w_random (snd lowered) /\
  w_files (snd given) = w_files (snd lowered) /\
  w_display (snd given) = w_display (snd lowered).
Proof.
  cbv zeta.
  repeat (split; [simpl; rewrite ?py_min_int_min; split; reflexivity |]).
  split; [apply limits_of_lowered_args |].
  rewrite !run_steps. rewrite limits_of_lowered_args.
  cbn [lowered_args seed num_clusters points_file centroids_file].
  destruct (generate_clusters _ _ _) as [[[clusters ground_truth] | e] g1];
    [| repeat split].
  destruct (with_open (points_file a) _ _) as [[[] | e] fs1];
    [| repeat split].
  destruct (with_open (centroids_file a) _ _) as [[[] | e] fs2];
    [| repeat split].
  destruct (show_plot _ _ _ _ _) as [r d]. repeat split.
Qed.

End OutOfOrder.

(** With [min-x=2000] and [max-x=1000] the x range is 1000 to 1000. *)
Example swapped_x_limits :
  min_x (limits_of_args swapped_x_args) = 1000 /\
  max_x (limits_of_args swapped_x_args) = 1000.
Proof. split; reflexivity. Qed.

(** C1, as stated, fails: with [min-x=2000] and [max-x=1000] the effective
    x range is not the one of [min-x=1000] and [max-x=2000], and from the
    same seed the centroids written differ. *)
Lemma out_of_order_bounds_counterexample :
  limits_of_args swapped_x_args <> limits_of_args ordered_x_args /\
  mf_text (w_files (snd (run float_text generate_py true swapped_x_args
                             initial_world))) !! "centroids.txt"
  <> mf_text (w_files (snd (run float_text generate_py true ordered_x_args
                                initial_world))) !! "centroids.txt".
Proof.
  split.
  - intros Heq. apply (f_equal max_x) in Heq. discriminate Heq.
  - vm_compute. discriminate.
Qed.

(* ===================================================================== *)
(** * Further properties of the sampler *)
(* ===================================================================== *)

Import Cases.

Section SamplerEdges.
Context {G : Type} `{RandomSource G}.

(** X1.  [generate_cluster] returns exactly [max 0 num_points] points; for
    a count that is not positive it makes no draw; and it can only raise
    when the count is positive. *)
Theorem generate_cluster_count num_points mean_x mean_y sg (g : G) :
  match generate_cluster num_points mean_x mean_y sg g with
  | (Ok pts, g') =>
      Z.of_nat (length pts) = Z.max 0 num_points /\
      (num_points <= 0 -> g' = g)
  | (Raise _, _) => 0 < num_points
  end.
Proof.
  destruct (generate_cluster num_points mean_x mean_y sg g)
    as [[pts | e] g'] eqn:Hrun.
  - split; [eapply generate_cluster_length; eassumption |].
    intros Hle. unfold generate_cluster in Hrun.
    replace (Z.to_nat num_points) with O in Hrun by lia.
    simpl in Hrun. now injection Hrun as _ <-.
  - destruct (Z.lt_ge_cases 0 num_points) as [Hpos | Hle]; [exact Hpos |].
    unfold generate_cluster in Hrun.
    replace (Z.to_nat num_points) with O in Hrun by lia.
    discriminate Hrun.
Qed.

(** X2.  When the first Gaussian draw of a cluster with at least one point
    is an infinity or a NaN, [int] raises and [generate_cluster] raises
    that exception at once, the generator being left as that draw left
    it. *)
Theorem generate_cluster_draw_not_convertible num_points mean_x mean_y sg
    (g g1 : G) (f : float) :
  0 < num_points ->
  rs_gauss mean_x sg g = (Ok f, g1) ->
  convertible f = false ->
  exists e,
    py_int_of_float f = Raise e /\
    generate_cluster num_points mean_x mean_y sg g = (Raise e, g1).
Proof.
  intros Hpos Hdraw Hf. unfold generate_cluster.
  destruct (Z.to_nat num_points) as [| k] eqn:Hk; [lia |].
  cbn [generate_cluster_loop]. unfold bind at 1. unfold py_gauss at 1.
  rewrite Hdraw. unfold bind at 1, lift_result at 1.
  destruct f as [s | s | | s m e]; try discriminate Hf;
    eexists; split; reflexivity.
Qed.

(** X3.  With at least one cluster asked for and an integer range given
    upper bound first, [generate_clusters] raises a [ValueError], the one
    of [randint] (whatever its message); when the range is the x range, no
    draw has been made. *)
Theorem empty_range_raises num_clusters (l : limits) (g : G) :
  0 < num_clusters ->
  max_x l < min_x l \/ max_y l < min_y l \/ max_points l < min_points l ->
  exists g' message,
    generate_clusters num_clusters l g = (Raise (ValueError message), g') /\
    (max_x l < min_x l -> g' = g).
Proof.
  intros Hpos Hempty. unfold generate_clusters.
  destruct (Z.to_nat num_clusters) as [| k] eqn:Hk; [lia |].
  cbn [generate_clusters_loop]. unfold bind at 1.
  unfold cluster_iteration.
  unfold bind at 1. unfold py_randint at 1.
  destruct (Z.ltb_spec (max_x l) (min_x l)) as [Hx | Hx].
  { eexists _, _. split; [reflexivity | reflexivity]. }
  destruct (rs_randint (min_x l) (max_x l) g) as [mx g1].
  unfold bind at 1. unfold py_randint at 1.
  destruct (Z.ltb_spec (max_y l) (min_y l)) as [Hy | Hy].
  { eexists _, _. split; [reflexivity | lia]. }
  destruct (rs_randint (min_y l) (max_y l) g1) as [my g2].
  unfold bind at 1. unfold py_uniform at 1.
  destruct (rs_uniform (min_sigma l) (max_sigma l) g2) as [sg g3].
  unfold bind at 1. unfold py_randint at 1.
  destruct (Z.ltb_spec (max_points l) (min_points l)) as [Hp | Hp].
  { eexists _, _. split; [reflexivity | lia]. }
  lia.
Qed.

End SamplerEdges.

Section SamplerBounds.
Context {G : Type} `{RandomSource G} `{!RandomSourceLaws G}.

Lemma iterations_integer_bounds (l : limits) (g g' : G) rs :
  iterations l g rs g' ->
  Forall (fun r => integer_bounds l (snd r) /\
                   n (snd r) = Z.of_nat (length (fst r))) rs.
Proof.
  induction 1 as [| g g1 g2 [pts d] rs Hit _ IH]; constructor; [| exact IH].
  apply cluster_iteration_inv in Hit
    as (h1 & h2 & h3 & h4 & np & Hx & Hmx & Hy & Hmy & _ & Hp & Hnp
        & Hgen & Hn).
  pose proof (rs_randint_range (min_x l) (max_x l) g Hx) as Bx.
  pose proof (rs_randint_range (min_y l) (max_y l) h1 Hy) as By.
  pose proof (rs_randint_range (min_points l) (max_points l) h3 Hp) as Bp.
  rewrite Hmx in Bx. rewrite Hmy in By. rewrite Hnp in Bp.
  simpl in Bx, By, Bp.
  apply generate_cluster_length in Hgen.
  simpl. unfold integer_bounds. rewrite Hn, Hgen.
  repeat split; lia.
Qed.

(** X4.  With a [randint] that keeps to its bounds, whatever the limits,
    every entry of a ground truth that [generate_clusters] returns has its
    centre inside the x and y ranges and its count between
    [max 0 min_points] and [max 0 max_points]: no assumption on the order
    of the bounds is needed, since a range given upper bound first makes
    the function raise. *)
Theorem returned_integers_within_bounds num_clusters (l : limits)
    (g g' : G) clusters ground_truth :
  generate_clusters num_clusters l g = (Ok (clusters, ground_truth), g') ->
  Forall (integer_bounds l) ground_truth.
Proof.
  intros Hrun.
  apply generate_clusters_spec in Hrun as (rs & _ & Hits & _ & ->).
  rewrite map_fmap. apply Forall_fmap.
  eapply Forall_impl; [eapply iterations_integer_bounds; eassumption |].
  intros r [Hb _]. exact Hb.
Qed.

(** X5.  With equal lower and upper point counts, every cluster returned
    has exactly that many points (none when the count is negative) and
    every entry records that number, whatever the generator draws. *)
Theorem fixed_point_count num_clusters (l : limits) (g g' : G)
    clusters ground_truth :
  min_points l = max_points l ->
  generate_clusters num_clusters l g = (Ok (clusters, ground_truth), g') ->
  Forall (fun d => n d = Z.max 0 (max_points l)) ground_truth /\
  Forall (fun pts => Z.of_nat (length pts) = Z.max 0 (max_points l))
         clusters.
Proof.
  intros Heq Hrun.
  apply generate_clusters_spec in Hrun as (rs & _ & Hits & -> & ->).
  apply iterations_integer_bounds in Hits.
  rewrite (map_fmap fst), (map_fmap snd).
  split; apply Forall_fmap; (eapply Forall_impl; [exact Hits |]);
    intros [pts d] [(_ & _ & Hb) Hn]; simpl in *; lia.
Qed.

(** X6.  When [max-x] is not above [min-x], every centre generated from
    the limits [run] builds has its x equal to [max-x]: bounds given out of
    order pin the coordinate. *)
Theorem out_of_order_x_pins_centres (a : args) (g g' : G)
    clusters ground_truth :
  arg_max_x a <= arg_min_x a ->
  generate_clusters (num_clusters a) (limits_of_args a) g
    = (Ok (clusters, ground_truth), g') ->
  Forall (fun d => fst (mean d) = arg_max_x a) ground_truth.
Proof.
  intros Hle Hrun.
  apply generate_clusters_spec in Hrun as (rs & _ & Hits & _ & ->).
  apply iterations_integer_bounds in Hits.
  rewrite map_fmap. apply Forall_fmap.
  eapply Forall_impl; [exact Hits |].
  intros [pts d] [(Hx & _) _]. simpl in *.
  rewrite py_min_int_min in Hx. lia.
Qed.

End SamplerBounds.

(** X7.  Whatever the arguments, the integer ranges [run] builds are in
    order, so that with Gaussian draws that convert the generation step of
    [run] returns: it cannot raise the empty-range error of [randint]. *)
Theorem run_generation_returns {G : Type} `{RandomSource G}
    `{!GaussFinite G} (a : args) (g : G) :
  exists clusters ground_truth g',
    generate_clusters (num_clusters a) (limits_of_args a) g
      = (Ok (clusters, ground_truth), g').
Proof.
  apply generate_clusters_returns; simpl; rewrite py_min_int_min; lia.
Qed.

Lemma generate_cluster_draw_not_convertible_witness :
  0 < 3 /\
  @rs_gauss unit (stuck_source infinity) 0 sigma_5 tt = (Ok infinity, tt) /\
  convertible infinity = false /\
  exists e,
    py_int_of_float infinity = Raise e /\
    @generate_cluster unit (stuck_source infinity) 3 0 0 sigma_5 tt
      = (Raise e, tt).
Proof.
  split; [lia |]. split; [reflexivity |]. split; [reflexivity |].
  apply (@generate_cluster_draw_not_convertible unit (stuck_source infinity)
           3 0 0 sigma_5 tt tt infinity); [lia | reflexivity | reflexivity].
Defined.

Lemma empty_range_raises_witness :
  0 < 3 /\
  (max_x empty_x_limits < min_x empty_x_limits \/
   max_y empty_x_limits < min_y empty_x_limits \/
   max_points empty_x_limits < min_points empty_x_limits) /\
  exists g' message,
    generate_clusters 3 empty_x_limits 42
      = (Raise (ValueError message), g') /\
    (max_x empty_x_limits < min_x empty_x_limits -> g' = 42).
Proof.
  assert (Hx : max_x empty_x_limits < min_x empty_x_limits)
    by (simpl; lia).
  split; [lia |]. split; [left; exact Hx |].
  apply (empty_range_raises 3 empty_x_limits 42); [lia | left; exact Hx].
Defined.

Lemma returned_integers_within_bounds_witness :
  generate_clusters 3 small_limits 42
    = (Ok (small_clusters, small_ground_truth), small_final) /\
  Forall (integer_bounds small_limits) small_ground_truth.
Proof.
  split; [exact small_generation |].
  exact (returned_integers_within_bounds 3 small_limits 42 small_final
           small_clusters small_ground_truth small_generation).
Defined.

Lemma five_points_generation :
  generate_clusters 2 five_points_limits 42
    = (Ok (five_points_clusters, five_points_ground_truth),
       five_points_final).
Proof. vm_compute. reflexivity. Qed.

Lemma fixed_point_count_witness :
  min_points five_points_limits = max_points five_points_limits /\
  generate_clusters 2 five_points_limits 42
    = (Ok (five_points_clusters, five_points_ground_truth),
       five_points_final) /\
  Forall (fun d => n d = Z.max 0 (max_points five_points_limits))
         five_points_ground_truth /\
  Forall (fun pts => Z.of_nat (length pts)
                     = Z.max 0 (max_points five_points_limits))
         five_points_clusters.
Proof.
  split; [reflexivity |]. split; [exact five_points_generation |].
  exact (fixed_point_count 2 five_points_limits 42 five_points_final
           five_points_clusters five_points_ground_truth
           eq_refl five_points_generation).
Defined.

Lemma swapped_generation :
  generate_clusters (num_clusters swapped_x_args)
      (limits_of_args swapped_x_args) 42
    = (Ok (swapped_clusters, swapped_ground_truth), swapped_final).
Proof. vm_compute. reflexivity. Qed.

Lemma out_of_order_x_pins_centres_witness :
  arg_max_x swapped_x_args <= arg_min_x swapped_x_args /\
  generate_clusters (num_clusters swapped_x_args)
      (limits_of_args swapped_x_args) 42
    = (Ok (swapped_clusters, swapped_ground_truth), swapped_final) /\
  Forall (fun d => fst (mean d) = arg_max_x swapped_x_args)
         swapped_ground_truth.
Proof.
  assert (Hle : arg_max_x swapped_x_args <= arg_min_x swapped_x_args)
    by (simpl; lia).
  split; [exact Hle |]. split; [exact swapped_generation |].
  exact (out_of_order_x_pins_centres swapped_x_args 42 swapped_final
           swapped_clusters swapped_ground_truth Hle swapped_generation).
Defined.

Lemma run_generation_returns_witness :
  exists clusters ground_truth g',
    generate_clusters (num_clusters swapped_x_args)
        (limits_of_args swapped_x_args) 42
      = (Ok (clusters, ground_truth), g').
Proof. exact (run_generation_returns swapped_x_args 42). Defined.

(** ** The sigma range *)

Lemma SFcompare_antisym (a b : float) :
  SFcompare b a = option_map CompOpp (SFcompare a b).
Proof.
  destruct a as [s1 | s1 | | s1 m1 e1], b as [s2 | s2 | | s2 m2 e2];
    simpl; try reflexivity;
    try (destruct s1; reflexivity); try (destruct s2; reflexivity);
    try (destruct s1, s2; reflexivity).
  destruct s1, s2; simpl; try reflexivity;
    rewrite (Z.compare_antisym e1 e2);
    destruct (e1 ?= e2); simpl; try reflexivity;
    rewrite ?Pos.compare_cont_antisym; simpl; reflexivity.
Qed.

Lemma SFcompare_refl (a : float) :
  is_nan a = false -> SFcompare a a = Some Eq.
Proof.
  destruct a as [s | s | | s m e]; simpl; try reflexivity.
  - now destruct s.
  - discriminate.
  - intros _. rewrite Z.compare_refl, Pos.compare_cont_refl. now destruct s.
Qed.

Lemma SFcompare_defined (a b : float) :
  is_nan a = false -> is_nan b = false -> SFcompare a b <> None.
Proof.
  destruct a as [s1 | s1 | | s1 m1 e1], b as [s2 | s2 | | s2 m2 e2];
    simpl; intros Ha Hb; try discriminate.
Qed.

(** What [run] makes of the sigma bounds is in order as soon as neither
    is a NaN. *)
Lemma py_min_float_leb (a b : float) :
  is_nan a = false -> is_nan b = false ->
  float_leb (py_min_float a b) b = true.
Proof.
  intros Ha Hb. unfold py_min_float, float_ltb, float_leb, SFltb, SFleb.
  rewrite (SFcompare_antisym a b).
  pose proof (SFcompare_defined a b Ha Hb) as Hdef.
  destruct (SFcompare a b) as [[| |] |] eqn:Hc; simpl;
    try congruence; try now rewrite Hc.
  now rewrite (SFcompare_refl b Hb).
Qed.

Lemma limits_of_args_normalized (a : args) :
  is_nan (arg_min_sigma a) = false ->
  is_nan (arg_max_sigma a) = false ->
  normalized (limits_of_args a).
Proof.
  intros Hmin Hmax. unfold normalized. simpl.
  rewrite !py_min_int_min.
  repeat split; try lia. now apply py_min_float_leb.
Qed.

(** X8.  For every argument record whose sigma bounds are not NaN, and a
    generator that keeps [randint] and [uniform] inside their bounds, each
    cluster generated from the limits [run] builds lies within those
    limits, sigma included: [run] always hands [generate_clusters] pairs
    that are in order. *)
Theorem run_ground_truth_within_limits {G : Type} `{RandomSource G}
    `{!RandomSourceLaws G} (a : args) (g g' : G) clusters ground_truth :
  is_nan (arg_min_sigma a) = false ->
  is_nan (arg_max_sigma a) = false ->
  generate_clusters (num_clusters a) (limits_of_args a) g
    = (Ok (clusters, ground_truth), g') ->
  Forall (within_limits (limits_of_args a)) ground_truth.
Proof.
  intros Hmin Hmax Hrun.
  apply generate_clusters_spec in Hrun as (rs & _ & Hits & _ & ->).
  rewrite map_fmap. apply Forall_fmap.
  eapply iterations_within_limits; [| eassumption].
  now apply limits_of_args_normalized.
Qed.

Lemma run_ground_truth_within_limits_witness :
  is_nan (arg_min_sigma swapped_x_args) = false /\
  is_nan (arg_max_sigma swapped_x_args) = false /\
  generate_clusters (num_clusters swapped_x_args)
      (limits_of_args swapped_x_args) 42
    = (Ok (swapped_clusters, swapped_ground_truth), swapped_final) /\
  Forall (within_limits (limits_of_args swapped_x_args))
         swapped_ground_truth.
Proof.
  split; [reflexivity |]. split; [reflexivity |].
  split; [exact swapped_generation |].
  exact (run_ground_truth_within_limits swapped_x_args 42 swapped_final
           swapped_clusters swapped_ground_truth eq_refl eq_refl
           swapped_generation).
Defined.

(** ** The number of draws *)

Lemma combine_fst_snd {A B} (rs : list (A * B)) :
  combine (map fst rs) (map snd rs) = rs.
Proof.
  induction rs as [| [x y] rs IH]; simpl; [reflexivity | now rewrite IH].
Qed.

Lemma length_iteration_draws (l : limits) (rs : list (list point * cluster_data)) :
  length (flat_map (iteration_draws l) rs)
    = (4 * length rs + 2 * length (concat (map fst rs)))%nat.
Proof.
  induction rs as [| [pts d] rs IH]; [reflexivity |].
  cbn [flat_map map concat fst]. rewrite !length_app, IH.
  unfold iteration_draws. rewrite length_app. cbn [length fst snd].
  assert (Hg : forall (x y : draw) (ps : list point),
             length (flat_map (fun _ => [x; y]) ps) = (2 * length ps)%nat).
  { intros x y ps. induction ps as [| p ps IHp]; simpl; [reflexivity |].
    rewrite IHp. lia. }
  rewrite Hg. lia.
Qed.

(** X9.  A run of [generate_clusters] that returns has made four draws per
    cluster and two per point: recorded on any generator, the calls number
    [4 * clusters + 2 * points]. *)
Theorem number_of_draws {G : Type} `{RandomSource G}
    num_clusters (l : limits) (g g' : G) log clusters ground_truth :
  generate_clusters num_clusters l (g, [])
    = (Ok (clusters, ground_truth), (g', log)) ->
  length log
    = (4 * length ground_truth + 2 * length (concat clusters))%nat.
Proof.
  intros Hrun. pose proof Hrun as Hspec.
  apply generate_clusters_spec in Hspec as (rs & _ & _ & -> & ->).
  unfold generate_clusters in Hrun.
  apply recorded_generate_clusters_loop in Hrun; [| reflexivity].
  simpl in Hrun. rewrite drop_0 in Hrun. subst log.
  rewrite combine_fst_snd, length_iteration_draws, length_map.
  reflexivity.
Qed.

Lemma number_of_draws_witness :
  generate_clusters 3 small_limits (42, [])
    = (Ok (small_clusters, small_ground_truth),
       (small_final, small_recorded_draws)) /\
  length small_recorded_draws
    = (4 * length small_ground_truth
       + 2 * length (concat small_clusters))%nat.
Proof.
  split; [exact small_recorded_generation |].
  exact (number_of_draws 3 small_limits 42 small_final small_recorded_draws
           small_clusters small_ground_truth small_recorded_generation).
Defined.

(* ===================================================================== *)
(** * Further properties of the writer *)
(* ===================================================================== *)

(** X10.  Writing a list of points is writing a first part and then the
    rest: [write_points_to_file] on [ps ++ qs] is the sequence of the two
    writes, on any file system, failures included. *)
Theorem write_points_app {F : Type} `{FileSystem F}
    (ps qs : list point) (file : fs_handle) (fs : F) :
  write_points_to_file (ps ++ qs) file fs
    = bind (write_points_to_file ps file)
           (fun _ => write_points_to_file qs file) fs.
Proof.
  revert fs. induction ps as [| p ps IH]; intros fs; [reflexivity |].
  cbn [app write_points_to_file]. unfold bind.
  destruct (fs_print file (format_point p) fs) as [[[] | e] fs1];
    [| reflexivity].
  rewrite IH. reflexivity.
Qed.

(** X11.  Distinct points are written as distinct lines. *)
Theorem format_point_injective (p q : point) :
  format_point p = format_point q -> p = q.
Proof.
  intros Heq.
  pose proof (parse_point_format_point p) as Hp.
  rewrite Heq, parse_point_format_point in Hp. now injection Hp.
Qed.

Lemma format_point_injective_witness :
  format_point (12, -7) = format_point (12, -7) /\
  (12, -7) = ((12, -7) : point).
Proof.
  split; [reflexivity |].
  exact (format_point_injective (12, -7) (12, -7) eq_refl).
Defined.

(** ** The files a write leaves alone *)

Lemma mem_write_points_other (points : list point) (file path : string) :
  path <> file ->
  forall (fs : mem_fs),
    mf_text (snd (write_points_to_file points file fs)) !! path
      = mf_text fs !! path.
Proof.
  intros Hne. induction points as [| p points IH]; intros fs;
    [reflexivity |].
  cbn [write_points_to_file]. unfold bind. cbn [fs_print mem_file_system].
  unfold mem_print. destruct (mf_room fs) as [| room]; [reflexivity |].
  rewrite IH. cbn [mf_text]. apply lookup_insert_ne. congruence.
Qed.

Lemma mem_with_open_other (points : list point) (file path : string)
    (fs : mem_fs) :
  path <> file ->
  mf_text (snd (with_open file (write_points_to_file points) fs)) !! path
    = mf_text fs !! path.
Proof.
  intros Hne. unfold with_open. cbn [fs_open_wt mem_file_system].
  unfold mem_open_wt.
  destruct (bool_decide (file ∈ mf_readonly fs)); [reflexivity |].
  pose proof (mem_write_points_other points file path Hne
                {| mf_text := <[file := ""]> (mf_text fs);
                   mf_readonly := mf_readonly fs;
                   mf_room := mf_room fs |}) as Hw.
  cbn [mf_text] in Hw. rewrite lookup_insert_ne in Hw by congruence.
  destruct (write_points_to_file _ _ _) as [[[] | e] fs2];
    cbn [fs_close mem_file_system mem_close snd] in *; exact Hw.
Qed.

(* ===================================================================== *)
(** * Further properties of the pipeline *)
(* ===================================================================== *)

Section RunOnMemory.
Context {G P : Type} `{RandomSource G} `{Plotter P}.
Variable str_float : float -> string.
Variable script_name : string.
Variable pyplot : bool.

(** X13.  On the reference file system a run, whatever its outcome, leaves
    every file other than its points file and its centroids file as it
    was. *)
Theorem run_touches_only_its_files (a : args) (w : world G mem_fs P)
    (path : string) :
  path <> points_file a ->
  path <> centroids_file a ->
  mf_text (w_files (snd (run str_float script_name pyplot a w))) !! path
    = mf_text (w_files w) !! path.
Proof.
  intros Hp Hc. rewrite run_steps.
  destruct (generate_clusters _ _ _) as [[[clusters ground_truth] | e] g1];
    [| reflexivity].
  pose proof (mem_with_open_other (concat clusters) (points_file a) path
                (w_files w) Hp) as H1.
  destruct (with_open (points_file a) _ _) as [[[] | e] fs1];
    cbn [snd] in H1; [| exact H1].
  pose proof (mem_with_open_other (map mean ground_truth)
                (centroids_file a) path fs1 Hc) as H2.
  destruct (with_open (centroids_file a) _ _) as [[[] | e] fs2];
    cbn [snd] in H2; [| cbn [snd w_files]; congruence].
  destruct (show_plot _ _ _ _ _) as [r d]. cbn [snd w_files]. congruence.
Qed.

(** X14.  When both outputs are sent to the same path, the second [open]
    empties what the first write left: on the reference file system the
    file ends up holding the centres only, and reads back as them. *)
Theorem same_path_keeps_centroids_only (a : args) (w : world G mem_fs P)
    clusters ground_truth (g1 : G) :
  generate_clusters (num_clusters a) (limits_of_args a)
      (rs_seed (seed a) (w_random w))
    = (Ok (clusters, ground_truth), g1) ->
  points_file a = centroids_file a ->
  ~ In (centroids_file a) (mf_readonly (w_files w)) ->
  (length (concat clusters) + length ground_truth
     <= mf_room (w_files w))%nat ->
  exists text,
    mf_text (w_files (snd (run str_float script_name pyplot a w)))
      !! centroids_file a = Some text /\
    text_lines text = map format_point (map mean ground_truth) /\
    read_points text = Some (map mean ground_truth).
Proof.
  intros Hgen Hsame Hro Hroom.
  rewrite run_steps, Hgen, Hsame.
  rewrite mem_with_open_write_points;
    [| now rewrite list_elem_of_In | lia].
  rewrite mem_with_open_write_points;
    [| cbn [mf_readonly]; now rewrite list_elem_of_In
     | cbn [mf_room]; rewrite length_map; lia].
  destruct (show_plot _ _ _ _ _) as [r d].
  cbn [snd w_files mf_text].
  exists (points_text (map mean ground_truth)).
  split; [apply lookup_insert_eq |].
  split; [apply text_lines_points_text | apply read_points_points_text].
Qed.

End RunOnMemory.

Section RunSteps.
Context {G F P : Type} `{RandomSource G} `{FileSystem F} `{Plotter P}.
Variable str_float : float -> string.
Variable script_name : string.

(** X16.  When the generation raises, [run] raises that exception before
    any file is opened: the file system, the console and the display are
    as they were, so that output files of an earlier run are not
    emptied. *)
Theorem generation_failure_leaves_outputs (pyplot : bool) (a : args)
    (w : world G F P) (e : exn) (g1 : G) :
  generate_clusters (num_clusters a) (limits_of_args a)
      (rs_seed (seed a) (w_random w))
    = (Raise e, g1) ->
  run str_float script_name pyplot a w = (Raise e, with_random w g1).
Proof. intros Hgen. rewrite run_steps, Hgen. reflexivity. Qed.

(** X17.  The plot comes last: when the generation and the two writes
    succeed, the outcome of [run] is the outcome of [show_plot], and
    whether that is a success or an exception the two files are written
    and the console holds the two lines of [print_parameters] followed by
    the whole ground-truth report. *)
Theorem plot_outcome_is_run_outcome (pyplot : bool) (a : args)
    (w : world G F P) clusters ground_truth (g1 : G) (fs1 fs2 : F) :
  generate_clusters (num_clusters a) (limits_of_args a)
      (rs_seed (seed a) (w_random w))
    = (Ok (clusters, ground_truth), g1) ->
  with_open (points_file a) (write_points_to_file (concat clusters))
            (w_files w) = (Ok tt, fs1) ->
  with_open (centroids_file a)
            (write_points_to_file (map mean ground_truth)) fs1
    = (Ok tt, fs2) ->
  let plot :=
    show_plot pyplot (concat clusters) (map mean ground_truth)
      ("$k=" +:+ str_int (num_clusters a) +:+ "$ random clusters")
      (w_display w) in
  let r := run str_float script_name pyplot a w in
  fst r = fst plot /\
  w_random (snd r) = g1 /\
  w_files (snd r) = fs2 /\
  w_display (snd r) = snd plot /\
  exists echo,
    length echo = 2%nat /\
    w_console (snd r)
      = w_console w ++ echo
        ++ "Ground truth:"
           :: ground_truth_lines_from str_float 0 ground_truth.
Proof.
  intros Hgen Hpoints Hcentroids. cbv zeta.
  rewrite run_steps, Hgen, Hpoints, Hcentroids.
  destruct (show_plot _ _ _ _ _) as [r d].
  cbn [fst snd w_random w_files w_console w_display].
  repeat split.
  exists (parameter_lines str_float script_name a).
  split; reflexivity.
Qed.

Lemma show_plot_no_points (centroids : list point) (title : string)
    (d : P) :
  fst (show_plot true [] centroids title d) <> Ok tt.
Proof.
  unfold show_plot. cbn [negb]. unfold bind, throw.
  repeat (destruct (pyplot_do _ _) as [[[] | ?] ?];
          [| cbn [fst]; discriminate]).
  cbn [fst]. discriminate.
Qed.

(** X18.  With [matplotlib] available, a run that generates no point at
    all (no cluster, or clusters without points) never ends well:
    [scatter] is called without its coordinates. *)
Theorem plot_without_points_fails (a : args) (w : world G F P)
    clusters ground_truth (g1 : G) :
  generate_clusters (num_clusters a) (limits_of_args a)
      (rs_seed (seed a) (w_random w))
    = (Ok (clusters, ground_truth), g1) ->
  concat clusters = [] ->
  fst (run str_float script_name true a w) <> Ok tt.
Proof.
  intros Hgen Hnone. rewrite run_steps, Hgen, Hnone.
  destruct (with_open (points_file a) _ _) as [[[] | e] fs1];
    [| cbn [fst]; discriminate].
  destruct (with_open (centroids_file a) _ _) as [[[] | e] fs2];
    [| cbn [fst]; discriminate].
  pose proof (show_plot_no_points (map mean ground_truth)
                ("$k=" +:+ str_int (num_clusters a) +:+ "$ random clusters")
                (w_display w)) as Hplot.
  destruct (show_plot _ _ _ _ _) as [r d]. exact Hplot.
Qed.

(** X19.  Since [run] seeds the generator before anything else, with a
    generator that [seed] resets a run does not depend on the state the
    generator was in: the same arguments give the same outcome, files,
    console and display. *)
Theorem run_ignores_generator_state `{!SeedResets G} (pyplot : bool)
    (a : args) (w : world G F P) (g : G) :
  run str_float script_name pyplot a (with_random w g)
    = run str_float script_name pyplot a w.
Proof.
  rewrite !run_steps. cbn [with_random w_random w_files w_console w_display].
  rewrite (rs_seed_resets (seed a) g (w_random w)). reflexivity.
Qed.

(** *** The report *)

Lemma ground_truth_lines_from_length (ground_truth : list cluster_data) :
  forall number,
    length (ground_truth_lines_from str_float number ground_truth)
      = (4 * length ground_truth)%nat.
Proof.
  induction ground_truth as [| d rest IH]; intros number; [reflexivity |].
  cbn [ground_truth_lines_from]. rewrite length_app, IH. simpl. lia.
Qed.

Lemma ground_truth_lines_from_lookup (ground_truth : list cluster_data) :
  forall (number i : nat) (d : cluster_data),
    ground_truth !! i = Some d ->
    ground_truth_lines_from str_float number ground_truth !! (4 * i)%nat
      = Some ("    Cluster " +:+ str_int (Z.of_nat (number + i) + 1) +:+ ":")
    /\
    ground_truth_lines_from str_float number ground_truth !! (4 * i + 3)%nat
      = Some ("        n: " +:+ str_int (n d)).
Proof.
  induction ground_truth as [| d0 rest IH]; intros number i d Hi;
    [discriminate |].
  cbn [ground_truth_lines_from].
  destruct i as [| i].
  - injection Hi as ->. rewrite Nat.add_0_r. split; reflexivity.
  - simpl in Hi. destruct (IH (S number) i d Hi) as [Hh Hn].
    replace (4 * S i)%nat with (4 + 4 * i)%nat by lia.
    replace (4 + 4 * i + 3)%nat with (4 + (4 * i + 3))%nat by lia.
    replace (number + S i)%nat with (S number + i)%nat by lia.
    split; [exact Hh | exact Hn].
Qed.

(** X20.  [print_ground_truth] always succeeds and adds to the console the
    heading and four lines per cluster, in order: the first of the four
    announces the cluster by its position counted from 1, the last gives
    its point count. *)
Theorem print_ground_truth_layout (ground_truth : list cluster_data)
    (w : world G F P) :
  exists lines,
    print_ground_truth str_float ground_truth w
      = (Ok tt, {| w_random := w_random w; w_files := w_files w;
                   w_console := w_console w ++ "Ground truth:" :: lines;
                   w_display := w_display w |}) /\
    length lines = (4 * length ground_truth)%nat /\
    forall (i : nat) (d : cluster_data),
      ground_truth !! i = Some d ->
      lines !! (4 * i)%nat
        = Some ("    Cluster " +:+ str_int (Z.of_nat i + 1) +:+ ":") /\
      lines !! (4 * i + 3)%nat = Some ("        n: " +:+ str_int (n d)).
Proof.
  exists (ground_truth_lines_from str_float 0 ground_truth).
  split; [apply print_ground_truth_spec |].
  split; [apply ground_truth_lines_from_length |].
  intros i d Hi. apply (ground_truth_lines_from_lookup _ 0 i d Hi).
Qed.

End RunSteps.

(** ** Sample runs of the pipeline *)

Lemma lcg_seed_resets : SeedResets Z.
Proof. split. intros n g g'. reflexivity. Qed.

#[export] Existing Instance lcg_seed_resets.

Lemma run_touches_only_its_files_witness :
  "notes.txt" <> points_file small_args /\
  "notes.txt" <> centroids_file small_args /\
  mf_text (w_files (snd (run float_text generate_py true small_args
                             notes_world))) !! "notes.txt"
    = mf_text (w_files notes_world) !! "notes.txt".
Proof.
  assert (Hp : "notes.txt" <> points_file small_args) by discriminate.
  assert (Hc : "notes.txt" <> centroids_file small_args) by discriminate.
  split; [exact Hp |]. split; [exact Hc |].
  exact (run_touches_only_its_files float_text generate_py true small_args
           notes_world "notes.txt" Hp Hc).
Defined.

Lemma same_file_generation :
  generate_clusters (num_clusters same_file_args)
      (limits_of_args same_file_args)
      (rs_seed (seed same_file_args) (w_random initial_world))
    = (Ok (small_clusters, small_ground_truth), small_final).
Proof. vm_compute. reflexivity. Qed.

Lemma same_path_keeps_centroids_only_witness :
  generate_clusters (num_clusters same_file_args)
      (limits_of_args same_file_args)
      (rs_seed (seed same_file_args) (w_random initial_world))
    = (Ok (small_clusters, small_ground_truth), small_final) /\
  points_file same_file_args = centroids_file same_file_args /\
  ~ In (centroids_file same_file_args) (mf_readonly (w_files initial_world)) /\
  (length (concat small_clusters) + length small_ground_truth
     <= mf_room (w_files initial_world))%nat /\
  exists text,
    mf_text (w_files (snd (run float_text generate_py true same_file_args
                               initial_world)))
      !! centroids_file same_file_args = Some text /\
    text_lines text = map format_point (map mean small_ground_truth) /\
    read_points text = Some (map mean small_ground_truth).
Proof.
  assert (Hro : ~ In (centroids_file same_file_args)
                     (mf_readonly (w_files initial_world)))
    by (simpl; tauto).
  assert (Hroom : (length (concat small_clusters) + length small_ground_truth
                     <= mf_room (w_files initial_world))%nat)
    by (vm_compute; lia).
  split; [exact same_file_generation |]. split; [reflexivity |].
  split; [exact Hro |]. split; [exact Hroom |].
  exact (same_path_keeps_centroids_only float_text generate_py true
           same_file_args initial_world small_clusters small_ground_truth
           small_final same_file_generation eq_refl Hro Hroom).
Defined.

Lemma small_args_initial_generation :
  generate_clusters (num_clusters small_args) (limits_of_args small_args)
      (rs_seed (seed small_args) (w_random initial_world))
    = (Ok (small_clusters, small_ground_truth), small_final).
Proof. vm_compute. reflexivity. Qed.

Lemma run_files_read_back_witness :
  generate_clusters (num_clusters small_args) (limits_of_args small_args)
      (rs_seed (seed small_args) (w_random initial_world))
    = (Ok (small_clusters, small_ground_truth), small_final) /\
  points_file small_args <> centroids_file small_args /\
  ~ In (points_file small_args) (mf_readonly (w_files initial_world)) /\
  ~ In (centroids_file small_args) (mf_readonly (w_files initial_world)) /\
  (length (concat small_clusters) + length small_ground_truth
     <= mf_room (w_files initial_world))%nat /\
  let files :=
    mf_text (w_files (snd (run float_text generate_py true small_args
                               initial_world))) in
  (exists text, files !! points_file small_args = Some text /\
                read_points text = Some (concat small_clusters)) /\
  (exists text, files !! centroids_file small_args = Some text /\
                read_points text = Some (map mean small_ground_truth)).
Proof.
  assert (Hd : points_file small_args <> centroids_file small_args)
    by discriminate.
  assert (Hp : ~ In (points_file small_args)
                    (mf_readonly (w_files initial_world)))
    by (simpl; tauto).
  assert (Hc : ~ In (centroids_file small_args)
                    (mf_readonly (w_files initial_world)))
    by (simpl; tauto).
  assert (Hroom : (length (concat small_clusters) + length small_ground_truth
                     <= mf_room (w_files initial_world))%nat)
    by (vm_compute; lia).
  split; [exact small_args_initial_generation |]. split; [exact Hd |].
  split; [exact Hp |]. split; [exact Hc |]. split; [exact Hroom |].
  exact (run_files_read_back float_text generate_py true small_args
           initial_world small_clusters small_ground_truth small_final
           small_args_initial_generation Hd Hp Hc Hroom).
Defined.

Lemma stuck_generation :
  @generate_clusters unit (stuck_source infinity)
      (num_clusters small_args) (limits_of_args small_args)
      (@rs_seed unit (stuck_source infinity) (seed small_args)
                (w_random stuck_world))
    = (Raise (OverflowError "cannot convert float infinity to integer"), tt).
Proof. vm_compute. reflexivity. Qed.

Lemma generation_failure_leaves_outputs_witness :
  @generate_clusters unit (stuck_source infinity)
      (num_clusters small_args) (limits_of_args small_args)
      (@rs_seed unit (stuck_source infinity) (seed small_args)
                (w_random stuck_world))
    = (Raise (OverflowError "cannot convert float infinity to integer"), tt)
  /\
  @run unit mem_fs (list pyplot_call) (stuck_source infinity) _ _
       float_text generate_py true small_args stuck_world
    = (Raise (OverflowError "cannot convert float infinity to integer"),
       with_random stuck_world tt).
Proof.
  split; [exact stuck_generation |].
  exact (@generation_failure_leaves_outputs unit mem_fs (list pyplot_call)
           (stuck_source infinity) _ _ float_text generate_py true
           small_args stuck_world _ tt stuck_generation).
Defined.

Lemma small_points_written :
  with_open (points_file small_args)
            (write_points_to_file (concat small_clusters))
            (w_files initial_world)
    = (Ok tt, snd (with_open (points_file small_args)
                     (write_points_to_file (concat small_clusters))
                     (w_files initial_world))).
Proof. vm_compute. reflexivity. Qed.

Lemma small_centroids_written :
  with_open (centroids_file small_args)
            (write_points_to_file (map mean small_ground_truth))
            (snd (with_open (points_file small_args)
                    (write_points_to_file (concat small_clusters))
                    (w_files initial_world)))
    = (Ok tt,
       snd (with_open (centroids_file small_args)
              (write_points_to_file (map mean small_ground_truth))
              (snd (with_open (points_file small_args)
                      (write_points_to_file (concat small_clusters))
                      (w_files initial_world))))).
Proof. vm_compute. reflexivity. Qed.

Lemma plot_outcome_is_run_outcome_witness :
  let fs1 := snd (with_open (points_file small_args)
                    (write_points_to_file (concat small_clusters))
                    (w_files initial_world)) in
  let fs2 := snd (with_open (centroids_file small_args)
                    (write_points_to_file (map mean small_ground_truth))
                    fs1) in
  let plot :=
    show_plot true (concat small_clusters) (map mean small_ground_truth)
      ("$k=" +:+ str_int (num_clusters small_args) +:+ "$ random clusters")
      (w_display initial_world) in
  let r := run float_text generate_py true small_args initial_world in
  generate_clusters (num_clusters small_args) (limits_of_args small_args)
      (rs_seed (seed small_args) (w_random initial_world))
    = (Ok (small_clusters, small_ground_truth), small_final) /\
  with_open (points_file small_args)
            (write_points_to_file (concat small_clusters))
            (w_files initial_world) = (Ok tt, fs1) /\
  with_open (centroids_file small_args)
            (write_points_to_file (map mean small_ground_truth)) fs1
    = (Ok tt, fs2) /\
  fst r = fst plot /\
  w_random (snd r) = small_final /\
  w_files (snd r) = fs2 /\
  w_display (snd r) = snd plot /\
  exists echo,
    length echo = 2%nat /\
    w_console (snd r)
      = w_console initial_world ++ echo
        ++ "Ground truth:"
           :: ground_truth_lines_from float_text 0 small_ground_truth.
Proof.
  cbv zeta.
  split; [exact small_args_initial_generation |].
  split; [exact small_points_written |].
  split; [exact small_centroids_written |].
  exact (plot_outcome_is_run_outcome float_text generate_py true small_args
           initial_world small_clusters small_ground_truth small_final _ _
           small_args_initial_generation small_points_written
           small_centroids_written).
Defined.

Lemma no_cluster_generation :
  generate_clusters (num_clusters no_cluster_args)
      (limits_of_args no_cluster_args)
      (rs_seed (seed no_cluster_args) (w_random initial_world))
    = (Ok ([], []), 42).
Proof. vm_compute. reflexivity. Qed.

Lemma plot_without_points_fails_witness :
  generate_clusters (num_clusters no_cluster_args)
      (limits_of_args no_cluster_args)
      (rs_seed (seed no_cluster_args) (w_random initial_world))
    = (Ok ([], []), 42) /\
  concat (@nil (list point)) = [] /\
  fst (run float_text generate_py true no_cluster_args initial_world)
    <> Ok tt.
Proof.
  split; [exact no_cluster_generation |]. split; [reflexivity |].
  exact (plot_without_points_fails float_text generate_py no_cluster_args
           initial_world [] [] 42 no_cluster_generation eq_refl).
Defined.

Lemma run_ignores_generator_state_witness :
  run float_text generate_py true small_args (with_random initial_world 7)
    = run float_text generate_py true small_args initial_world.
Proof.
  exact (run_ignores_generator_state float_text generate_py true small_args
           initial_world 7).
Defined.

Lemma write_points_first_failure_witness :
  let fs := {| mf_text := <[ "out.txt" := "" ]> empty;
               mf_readonly := []; mf_room := 1 |} in
  let fs1 := snd (write_points_to_file [(1, 2)] "out.txt" fs) in
  write_points_to_file [(1, 2)] "out.txt" fs = (Ok tt, fs1) /\
  fs_print "out.txt" (format_point (-3, 4)) fs1
    = (Raise (OSError "No space left on device"), fs1) /\
  write_points_to_file ([(1, 2)] ++ (-3, 4) :: [(5, -6)]) "out.txt" fs
    = (Raise (OSError "No space left on device"), fs1).
Proof.
  cbv zeta.
  assert (Hb : write_points_to_file [(1, 2)] "out.txt"
                 {| mf_text := <[ "out.txt" := "" ]> empty;
                    mf_readonly := []; mf_room := 1 |}
               = (Ok tt,
                  snd (write_points_to_file [(1, 2)] "out.txt"
                         {| mf_text := <[ "out.txt" := "" ]> empty;
                            mf_readonly := []; mf_room := 1 |})))
    by (vm_compute; reflexivity).
  assert (Hp : fs_print "out.txt" (format_point (-3, 4))
                 (snd (write_points_to_file [(1, 2)] "out.txt"
                         {| mf_text := <[ "out.txt" := "" ]> empty;
                            mf_readonly := []; mf_room := 1 |}))
               = (Raise (OSError "No space left on device"),
                  snd (write_points_to_file [(1, 2)] "out.txt"
                         {| mf_text := <[ "out.txt" := "" ]> empty;
                            mf_readonly := []; mf_room := 1 |})))
    by (vm_compute; reflexivity).
  split; [exact Hb |]. split; [exact Hp |].
  exact (write_points_first_failure [(1, 2)] [(5, -6)] (-3, 4) "out.txt"
           _ _ _ _ Hb Hp).
Defined.

(** ** A run that cannot fail *)

Lemma limits_of_args_integers_ordered (a : args) :
  min_points (limits_of_args a) <= max_points (limits_of_args a) /\
  min_x (limits_of_args a) <= max_x (limits_of_args a) /\
  min_y (limits_of_args a) <= max_y (limits_of_args a).
Proof. simpl. rewrite !py_min_int_min. lia. Qed.

Lemma concat_length_bound (l : limits)
    (rs : list (list point * cluster_data)) :
  Forall (fun r => integer_bounds l (snd r) /\
                   n (snd r) = Z.of_nat (length (fst r))) rs ->
  (length (concat (map fst rs))
     <= length rs * Z.to_nat (Z.max 0 (max_points l)))%nat.
Proof.
  induction 1 as [| [pts d] rs [(_ & _ & Hb) Hn] _ IH]; [simpl; lia |].
  cbn [map concat fst length]. rewrite length_app. simpl in Hb, Hn. lia.
Qed.

(** X22.  Without [matplotlib], on the reference file system, with a
    generator that keeps [randint] inside its bounds and whose Gaussian
    draws convert, a run succeeds whatever the arguments, provided the two
    paths can be opened and the device has room for
    [num_clusters * (max 0 max_points + 1)] lines; the console then holds
    two lines of parameters and the ground-truth report of
    [max 0 num_clusters] clusters. *)
Theorem run_succeeds {G P : Type} `{RandomSource G} `{Plotter P}
    `{!RandomSourceLaws G} `{!GaussFinite G}
    (str_float : float -> string) (script_name : string)
    (a : args) (w : world G mem_fs P) :
  ~ In (points_file a) (mf_readonly (w_files w)) ->
  ~ In (centroids_file a) (mf_readonly (w_files w)) ->
  (Z.to_nat (num_clusters a) * S (Z.to_nat (Z.max 0 (arg_max_points a)))
     <= mf_room (w_files w))%nat ->
  exists echo ground_truth,
    fst (run str_float script_name false a w) = Ok tt /\
    length echo = 2%nat /\
    w_console (snd (run str_float script_name false a w))
      = w_console w ++ echo
        ++ "Ground truth:"
           :: ground_truth_lines_from str_float 0 ground_truth /\
    Z.of_nat (length ground_truth) = Z.max 0 (num_clusters a).
Proof.
  intros Hp Hc Hroom.
  destruct (limits_of_args_integers_ordered a) as (Op & Ox & Oy).
  destruct (generate_clusters_returns (num_clusters a) (limits_of_args a)
              (rs_seed (seed a) (w_random w)) Op Ox Oy)
    as (clusters & ground_truth & g1 & Hgen).
  pose proof Hgen as Hspec.
  apply generate_clusters_spec in Hspec as (rs & Hlen & Hits & Hcl & Hgt).
  apply iterations_integer_bounds in Hits.
  apply concat_length_bound in Hits. rewrite <- Hcl, Hlen in Hits.
  cbn [limits_of_args max_points] in Hits.
  assert (Hk : length ground_truth = Z.to_nat (num_clusters a))
    by (rewrite Hgt, length_map; exact Hlen).
  exists (parameter_lines str_float script_name a), ground_truth.
  rewrite run_steps, Hgen.
  rewrite mem_with_open_write_points;
    [| now rewrite list_elem_of_In | lia].
  rewrite mem_with_open_write_points;
    [| cbn [mf_readonly]; now rewrite list_elem_of_In
     | cbn [mf_room]; rewrite length_map; lia].
  rewrite show_plot_unavailable. cbn [fst snd w_console].
  repeat split. lia.
Qed.

Lemma run_succeeds_witness :
  ~ In (points_file swapped_x_args) (mf_readonly (w_files initial_world)) /\
  ~ In (centroids_file swapped_x_args)
       (mf_readonly (w_files initial_world)) /\
  (Z.to_nat (num_clusters swapped_x_args)
     * S (Z.to_nat (Z.max 0 (arg_max_points swapped_x_args)))
     <= mf_room (w_files initial_world))%nat /\
  exists echo ground_truth,
    fst (run float_text generate_py false swapped_x_args initial_world)
      = Ok tt /\
    length echo = 2%nat /\
    w_console (snd (run float_text generate_py false swapped_x_args
                        initial_world))
      = w_console initial_world ++ echo
        ++ "Ground truth:"
           :: ground_truth_lines_from float_text 0 ground_truth /\
    Z.of_nat (length ground_truth) = Z.max 0 (num_clusters swapped_x_args).
Proof.
  assert (Hp : ~ In (points_file swapped_x_args)
                    (mf_readonly (w_files initial_world)))
    by (simpl; tauto).
  assert (Hc : ~ In (centroids_file swapped_x_args)
                    (mf_readonly (w_files initial_world)))
    by (simpl; tauto).
  assert (Hroom : (Z.to_nat (num_clusters swapped_x_args)
                     * S (Z.to_nat (Z.max 0 (arg_max_points swapped_x_args)))
                     <= mf_room (w_files initial_world))%nat)
    by (vm_compute; lia).
  split; [exact Hp |]. split; [exact Hc |]. split; [exact Hroom |].
  exact (run_succeeds float_text generate_py swapped_x_args initial_world
           Hp Hc Hroom).
Defined.
